(** * Table-of-contents generation (create_toc.py): model and properties

    A shallow embedding of [src/create_table_of_contents/create_toc.py].

    Python floats are idealised as rationals ([Q]); Python [int]s that count
    pages or nesting levels are natural numbers.  The two external libraries
    (fpdf2 for rendering, pypdf for reading and merging) are modelled by the
    part of their state the script observes: the page cursor, the page
    geometry, the current font and the sequence of drawing operations.  Font
    metrics and text wrapping stay parameters. *)

From Stdlib Require Import QArith Qround Lqa ZArith List String Ascii Bool Lia.
From Stdlib Require Import DecimalString DecimalNat Sorted Permutation.
Import ListNotations.

Open Scope string_scope.
Open Scope Q_scope.

(** ** Python primitives used by the script *)

Module Py.

(** [str(n)] for a non-negative [int]. *)
Definition str (n : nat) : string :=
  NilEmpty.string_of_uint (Nat.to_uint n).

(** [len(s)]. *)
Definition len (s : string) : nat := String.length s.

(** [s[:-1]]: every character but the last; the empty string stays empty. *)
Fixpoint drop_last (s : string) : string :=
  match s with
  | EmptyString => EmptyString
  | String c EmptyString => EmptyString
  | String c rest => String c (drop_last rest)
  end.

(** [l[start:]] with Python's treatment of a negative start, which counts
    from the end of the list. *)
Definition slice_from {A} (l : list A) (start : Z) : list A :=
  if (start <? 0)%Z
  then skipn (List.length l - Z.to_nat (- start)) l
  else skipn (Z.to_nat start) l.

(** [l.sort(key=key)]: Python's sort is stable, so its result is the one of
    the stable insertion sort. *)
Section Sort.
Context {A : Type} (key : A -> nat).

Fixpoint insert (a : A) (l : list A) : list A :=
  match l with
  | [] => [a]
  | b :: rest =>
      if (key a <=? key b)%nat then a :: b :: rest
      else b :: insert a rest
  end.

Fixpoint sort (l : list A) : list A :=
  match l with
  | [] => []
  | a :: rest => insert a (sort rest)
  end.
End Sort.

(** [s.lower()] on ASCII text. *)
Definition lower_char (c : ascii) : ascii :=
  let n := nat_of_ascii c in
  if ((65 <=? n) && (n <=? 90))%nat then ascii_of_nat (n + 32) else c.

Fixpoint lower (s : string) : string :=
  match s with
  | EmptyString => EmptyString
  | String c rest => String (lower_char c) (lower rest)
  end.

(** [not s] for a string: it is empty. *)
Definition is_empty (s : string) : bool :=
  match s with
  | EmptyString => true
  | String _ _ => false
  end.

(** [a < b] on floats. *)
Definition lt (a b : Q) : bool := negb (Qle_bool b a).

(** Truth value of a float: non-zero. *)
Definition truthy (a : Q) : bool := negb (Qeq_bool a 0).

End Py.

(** ** The part of fpdf2 the script relies on *)

Inductive Align := AlignC | AlignL | AlignR | AlignJ.
Inductive XPos := XRIGHT | XEND | XLMARGIN.
Inductive YPos := YTOP | YLAST | YNEXT.

(** A font face: what [use_font_face] installs. *)
Record FontFace := mkFontFace {
  family : string;
  emphasis : string;
  size_pt : Q;
  color : option string
}.

(** [fpdf.TextStyle]: a font face with margins. *)
Record TextStyle := mkTextStyle {
  font_family : string;
  font_size_pt : Q;
  font_style : string;
  ts_color : option string;
  ts_t_margin : Q;
  ts_l_margin : Q;
  ts_b_margin : Q
}.

(** One drawing or registration call, in the order the document received
    them.  A cell records the page and cursor position at which it was
    issued. *)
Inductive Op :=
| OpSetTitle (title : string)
| OpAddLink (name : string)
| OpCell (pg : nat) (x y w h : Q) (text : string) (align : Align)
| OpMultiCell (pg : nat) (x y w h : Q) (text : string) (link : string)
    (align : Align).

(** Where the text of a [multi_cell] ends: the page of its last line, the
    abscissa of the end of that line and the ordinate of its top. *)
Record Layout := mkLayout {
  lay_page : nat;
  lay_x : Q;
  lay_y : Q
}.

Module FPDF.

Record t := mk {
  k : Q;                (* points per user unit *)
  w : Q;                (* page width *)
  h : Q;                (* page height *)
  l_margin : Q;
  t_margin : Q;
  r_margin : Q;
  b_margin : Q;
  c_margin : Q;
  x : Q;
  y : Q;
  lasth : Q;            (* height of the last printed cell *)
  page : nat;
  font : FontFace;
  content : list Op
}.

Definition with_cursor (pdf : t) (nx ny : Q) : t :=
  mk (k pdf) (w pdf) (h pdf) (l_margin pdf) (t_margin pdf) (r_margin pdf)
     (b_margin pdf) (c_margin pdf) nx ny (lasth pdf) (page pdf) (font pdf)
     (content pdf).

Definition with_lasth (pdf : t) (lh : Q) : t :=
  mk (k pdf) (w pdf) (h pdf) (l_margin pdf) (t_margin pdf) (r_margin pdf)
     (b_margin pdf) (c_margin pdf) (x pdf) (y pdf) lh (page pdf) (font pdf)
     (content pdf).

Definition with_page (pdf : t) (p : nat) : t :=
  mk (k pdf) (w pdf) (h pdf) (l_margin pdf) (t_margin pdf) (r_margin pdf)
     (b_margin pdf) (c_margin pdf) (x pdf) (y pdf) (lasth pdf) p (font pdf)
     (content pdf).

Definition with_font (pdf : t) (f : FontFace) : t :=
  mk (k pdf) (w pdf) (h pdf) (l_margin pdf) (t_margin pdf) (r_margin pdf)
     (b_margin pdf) (c_margin pdf) (x pdf) (y pdf) (lasth pdf) (page pdf) f
     (content pdf).

Definition with_l_margin (pdf : t) (m : Q) : t :=
  mk (k pdf) (w pdf) (h pdf) m (t_margin pdf) (r_margin pdf)
     (b_margin pdf) (c_margin pdf) (x pdf) (y pdf) (lasth pdf) (page pdf)
     (font pdf) (content pdf).

Definition emit (pdf : t) (op : Op) : t :=
  mk (k pdf) (w pdf) (h pdf) (l_margin pdf) (t_margin pdf) (r_margin pdf)
     (b_margin pdf) (c_margin pdf) (x pdf) (y pdf) (lasth pdf) (page pdf)
     (font pdf) (content pdf ++ [op]).

(** [FPDF()]: portrait A4 in millimetres, 1 cm margins, automatic page
    break 2 cm above the bottom edge, no page yet. *)
Definition new : t :=
  let k := 72 / 25.4 in
  let margin := (7200 / 254) / k in
  mk k (595.28 / k) (841.89 / k) margin margin margin (2 * margin)
     (margin / 10) 0 0 0 0%nat (mkFontFace "" "" 12 None) [].

(** [add_page()] *)
Definition add_page (pdf : t) : t :=
  with_cursor (with_page pdf (S (page pdf))) (l_margin pdf) (t_margin pdf).

(** [page_no()] *)
Definition page_no (pdf : t) : nat := page pdf.

(** [epw]: the effective page width. *)
Definition epw (pdf : t) : Q := w pdf - l_margin pdf - r_margin pdf.

(** [font_size]: the font size in user units. *)
Definition font_size (pdf : t) : Q := size_pt (font pdf) / k pdf.

Definition get_x (pdf : t) : Q := x pdf.

(** [set_x(x)]: a negative value is relative to the right edge. *)
Definition set_x (v : Q) (pdf : t) : t :=
  with_cursor pdf (if Qle_bool 0 v then v else w pdf + v) (y pdf).

(** [ln(h)]: back to the left margin, down by [h], or by the height of
    the last cell when no [h] is given. *)
Definition ln (hh : option Q) (pdf : t) : t :=
  with_cursor pdf (l_margin pdf)
    (y pdf + match hh with None => lasth pdf | Some v => v end).

Definition set_title (title : string) (pdf : t) : t :=
  emit pdf (OpSetTitle title).

(** [add_link(name=...)] *)
Definition add_link (name : string) (pdf : t) : t :=
  emit pdf (OpAddLink name).

Definition page_break_trigger (pdf : t) : Q := h pdf - b_margin pdf.

(** The page break a cell of height [hh] causes when it does not fit
    above the bottom margin: a new page, same abscissa. *)
Definition perform_page_break_if_need_be (hh : Q) (pdf : t) : t :=
  if Py.lt (page_break_trigger pdf) (y pdf + hh)
  then with_cursor (with_page pdf (S (page pdf))) (x pdf) (t_margin pdf)
  else pdf.

(** [cell(w, h, text, align=...)] with the default [new_x=XPos.RIGHT],
    [new_y=YPos.TOP]; a width of [0] extends to the right margin. *)
Definition cell (ww hh : Q) (text : string) (align : Align) (pdf : t) : t :=
  let pdf := perform_page_break_if_need_be hh pdf in
  let ww := if Py.truthy ww then ww else w pdf - r_margin pdf - x pdf in
  let pdf := emit pdf (OpCell (page pdf) (x pdf) (y pdf) ww hh text align) in
  with_lasth (with_cursor pdf (x pdf + ww) (y pdf)) hh.

(** The width of a text in font units, thousandths of the font size: the
    sum of the widths of its glyphs. *)
Fixpoint text_units (cw : FontFace -> ascii -> Z) (f : FontFace)
    (s : string) : Z :=
  match s with
  | EmptyString => 0
  | String c rest => cw f c + text_units cw f rest
  end.

(** What the script leaves to the library: the font metrics and the
    breaking of a text into lines and pages. *)
Class Typeset := {
  (** Width of one glyph of a font face, in font units. *)
  char_width : FontFace -> ascii -> Z;
  (** Where a text ends when drawn by [multi_cell] with the given width,
      line height and alignment in the given document. *)
  layout : t -> Q -> Q -> string -> Align -> Layout
}.

Section Metrics.

Context {T : Typeset}.

(** [get_string_width(s)]: the width of [s] in the current font, scaled
    to the font size in user units. *)
Definition get_string_width (pdf : t) (s : string) : Q :=
  inject_Z (text_units char_width (font pdf) s) * font_size pdf / 1000.

(** [multi_cell(w, h, text, new_x, new_y, link, align)].  The cursor
    ends where [new_x] and [new_y] say, relative to the last line. *)
Definition multi_cell (ww hh : Q) (text : string) (new_x : XPos)
    (new_y : YPos) (link : string) (align : Align) (pdf : t) : t :=
  let L := layout pdf ww hh text align in
  let pdf' :=
    emit pdf (OpMultiCell (page pdf) (x pdf) (y pdf) ww hh text link align) in
  let nx := match new_x with
            | XRIGHT => x pdf + ww
            | XEND => lay_x L
            | XLMARGIN => l_margin pdf
            end in
  let ny := match new_y with
            | YTOP => y pdf
            | YLAST => lay_y L
            | YNEXT => lay_y L + hh
            end in
  with_lasth (with_cursor (with_page pdf' (lay_page L)) nx ny) hh.

End Metrics.

(** The face [set_font(family, style, size)] selects over the current one:
    an empty family and a size of zero stand for the current ones, and the
    family is lower-cased.  The styles of the script, ["B"] and [""], are
    in the form [set_font] normalises a style to.  The text colour is not
    touched. *)
Definition select_font (fam sty : string) (size : Q) (cur : FontFace)
    : FontFace :=
  mkFontFace (Py.lower (if Py.is_empty fam then family cur else fam)) sty
    (if Py.truthy size then size else size_pt cur) (color cur).

Definition set_font (fam sty : string) (size : Q) (pdf : t) : t :=
  with_font pdf (select_font fam sty size (font pdf)).

Definition with_color (f : FontFace) (c : option string) : FontFace :=
  mkFontFace (family f) (emphasis f) (size_pt f) c.

(** Entry of [use_font_face]: the font of the style is selected with
    [set_font], then the text colour set when the style has one. *)
Definition face_of (ts : TextStyle) (cur : FontFace) : FontFace :=
  let f := select_font (font_family ts) (font_style ts) (font_size_pt ts)
             cur in
  match ts_color ts with
  | Some c => with_color f (Some c)
  | None => f
  end.

(** Exit of [use_font_face]: the previous text colour is put back, then
    the previous font selected again by [set_font] on [prev_font], which
    reads an empty previous family or a previous size of zero as the
    current one. *)
Definition restored_face (prev cur : FontFace) : FontFace :=
  select_font (family prev) (emphasis prev) (size_pt prev)
    (with_color cur (color prev)).

(** [with pdf.use_text_style(ts): body], entry: the top margin is skipped,
    the left margin replaced and the font switched, each only when the style
    sets it. *)
Definition enter_text_style (ts : TextStyle) (pdf : t) : t :=
  let pdf := if Py.truthy (ts_t_margin ts)
             then ln (Some (ts_t_margin ts)) pdf else pdf in
  let pdf := if Py.truthy (ts_l_margin ts)
             then with_cursor (with_l_margin pdf (ts_l_margin ts))
                    (ts_l_margin ts) (y pdf)
             else pdf in
  with_font pdf (face_of ts (font pdf)).

(** Exit of the block: the font of [before] is selected again, the bottom
    margin skipped and the left margin of [before] put back. *)
Definition leave_text_style (ts : TextStyle) (before after : t) : t :=
  let pdf := with_font after (restored_face (font before) (font after)) in
  let pdf := if Py.truthy (ts_b_margin ts)
             then ln (Some (ts_b_margin ts)) pdf else pdf in
  if Py.truthy (ts_l_margin ts)
  then with_cursor (with_l_margin pdf (l_margin before))
         (l_margin before) (y pdf)
  else pdf.

(** The whole block; [None] when the body does not finish. *)
Definition use_text_style (ts : TextStyle) (body : t -> option t)
    (pdf : t) : option t :=
  match body (enter_text_style ts pdf) with
  | None => None
  | Some after => Some (leave_text_style ts pdf after)
  end.

End FPDF.

(** ** The part of pypdf the script relies on *)

(** An outline entry that points at a page. *)
Record Destination := mkDestination {
  dest_title : string;
  dest_ref : nat
}.

#[local] Set Warnings "-register-all".

(** An outline is a list whose items are destinations or nested outlines;
    anything else in it is ignored by the script. *)
Inductive OutlineItem :=
| OutlineDest (d : Destination)
| OutlineList (items : list OutlineItem)
| OutlineOther.

(** A page of the merged document: a page of the rendered table of
    contents or a page of the source, each with its index there. *)
Inductive PageRef :=
| TocPage (n : nat)
| SourcePage (n : nat).

Record PdfReader := mkPdfReader {
  outline : list OutlineItem;
  pages : list PageRef;
  get_destination_page_number : Destination -> nat
}.

(** [PdfReader(toc_buffer)] for a buffer written by [toc.output]: one page
    per page of the rendered document. *)
Definition toc_reader_pages (toc_pdf : FPDF.t) : list PageRef :=
  map TocPage (seq 0 (FPDF.page_no toc_pdf)).

Module PdfWriter.

Record t := mk {
  pages : list PageRef;
  named_destinations : list (string * nat)
}.

Definition new : t := mk [] [].

Definition add_page (p : PageRef) (wr : t) : t :=
  mk (pages wr ++ [p]) (named_destinations wr).

(** [append(reader)]: every page of the reader, in order. *)
Definition append (ps : list PageRef) (wr : t) : t :=
  mk (pages wr ++ ps) (named_destinations wr).

Definition add_named_destination (name : string) (page_number : nat)
    (wr : t) : t :=
  mk (pages wr) (named_destinations wr ++ [(name, page_number)]).

(** The page a named destination points at. *)
Definition resolve (wr : t) (page_number : nat) : option PageRef :=
  nth_error (pages wr) page_number.

End PdfWriter.

(** ** The class [CreateTOC] *)

Definition DEFAULT_SKIP_BOOKMARKS : Z := 4.

(** A flattened bookmark: the dict with keys ["depth"], ["title"], ["page"]. *)
Record Bookmark := mkBookmark {
  depth : nat;
  title : string;
  page : nat
}.

(** [dict.get(key, None)] on a dict given by its items. *)
Fixpoint dict_get {V} (d : list (string * V)) (key : string) : option V :=
  match d with
  | [] => None
  | (k0, v) :: rest => if String.eqb k0 key then Some v else dict_get rest key
  end.

Definition title_style : TextStyle :=
  mkTextStyle "Helvetica" 18 "B" (Some "#0000ff") 0 0 18.
Definition depth_0_style : TextStyle :=
  mkTextStyle "Helvetica" 12 "B" None 0 0 0.
Definition default_style : TextStyle :=
  mkTextStyle "Helvetica" 12 "" None 0 0 0.

Definition TOC_TEXT_STYLES : list (string * TextStyle) :=
  [ ("title", title_style);
    ("depth_0", depth_0_style);
    ("default", default_style) ].

(** [extract_bookmarks] on one item of the outline. *)
Fixpoint extract_item (reader : PdfReader) (item : OutlineItem) (depth : nat)
    : list Bookmark :=
  match item with
  | OutlineList sub =>
      flat_map (fun i => extract_item reader i (S depth)) sub
  | OutlineDest d =>
      [ mkBookmark depth (dest_title d)
          (get_destination_page_number reader d) ]
  | OutlineOther => []
  end.

(** [extract_bookmarks(outlines, depth)]: the loop over the items. *)
Definition extract_bookmarks (reader : PdfReader)
    (outlines : list OutlineItem) (depth : nat) : list Bookmark :=
  flat_map (fun item => extract_item reader item depth) outlines.

(** [get_text_style(depth)].  A [TextStyle] is always true, so the test
    [if style] is the test for a missing key; the table has a ["default"]
    entry, so the subscript [TOC_TEXT_STYLES["default"]] is that entry. *)
Definition get_text_style (depth : nat) : TextStyle :=
  match dict_get TOC_TEXT_STYLES ("depth_" ++ Py.str depth) with
  | Some style => style
  | None => default_style
  end.

Definition level_indent : Q := 7.5.
Definition line_spacing : Q := 1.5.

(** [item_page_number]: fpdf numbers pages from 1. *)
Definition item_page_number (toc_pages : nat) (item : Bookmark) : string :=
  Py.str (page item + toc_pages + 1).

Definition link_name (item : Bookmark) : string :=
  "dest" ++ Py.str (page item).

(** [depth * level_indent] *)
Definition indent_of (item : Bookmark) : Q :=
  inject_Z (Z.of_nat (depth item)) * level_indent.

(** What the measuring step hands to the rest of the row: the document
    (after a forced line break, if any), [clearance_margin], [current_x]
    and [in_between_space]. *)
Record Space := mkSpace {
  sp_toc : FPDF.t;
  clearance_margin : Q;
  current_x : Q;
  in_between_space : Q
}.

Section Rendering.

Context {T : FPDF.Typeset}.

(** Lines 142-152: the title, justified, starting at the indented margin. *)
Definition render_title (toc : FPDF.t) (item : Bookmark) : FPDF.t :=
  let indent := indent_of item in
  let toc := FPDF.set_x (FPDF.l_margin toc + indent) toc in
  FPDF.multi_cell (FPDF.epw toc - indent) (FPDF.font_size toc * line_spacing)
    (title item) XEND YLAST ("#" ++ link_name item) AlignJ toc.

(** Lines 155-166: the space left between title and page number, with the
    line break taken when there is none. *)
Definition measure_space (toc : FPDF.t) (indent : Q) (label : string)
    : Space :=
  let clearance_margin := FPDF.c_margin toc * 2 in
  let current_x := FPDF.get_x toc in
  let page_label_length := FPDF.get_string_width toc label in
  let in_between_space :=
    FPDF.w toc - current_x - page_label_length - clearance_margin
    - FPDF.r_margin toc in
  if Py.lt in_between_space 0 then
    let toc := FPDF.ln None toc in
    let toc := FPDF.set_x (FPDF.l_margin toc + indent) toc in
    let current_x := FPDF.get_x toc in
    mkSpace toc clearance_margin current_x
      (FPDF.w toc - current_x - page_label_length - FPDF.r_margin toc)
  else mkSpace toc clearance_margin current_x in_between_space.

(** Lines 169-173: the loop that accumulates dots.  [None] when the loop is
    still running after [fuel] iterations. *)
Fixpoint fill_loop (fuel : nat) (toc : FPDF.t)
    (clearance_margin in_between_space : Q) (in_between : string)
    : option string :=
  if Py.lt (FPDF.get_string_width toc in_between + clearance_margin)
       in_between_space
  then match fuel with
       | O => None
       | S fuel' =>
           fill_loop fuel' toc clearance_margin in_between_space
             (in_between ++ ".")
       end
  else Some in_between.

(** Lines 167-173: [in_between] after the guarded loop. *)
Definition accumulate (fuel : nat) (sp : Space) : option string :=
  if Py.lt 0 (in_between_space sp)
  then fill_loop fuel (sp_toc sp) (clearance_margin sp)
         (in_between_space sp) ""
  else Some "".

(** Lines 168, 175-184: the fill, drawn from [current_x] when the space is
    positive and more than one dot was accumulated. *)
Definition render_fill (sp : Space) (in_between : string) (link : string)
    : FPDF.t :=
  let toc := sp_toc sp in
  if Py.lt 0 (in_between_space sp) && (1 <? Py.len in_between)%nat then
    FPDF.multi_cell (FPDF.w toc - current_x sp - FPDF.r_margin toc)
      (FPDF.font_size toc * line_spacing) (Py.drop_last in_between)
      XEND YLAST link AlignL toc
  else toc.

(** Lines 187-196: the page number, right-aligned from [current_x]. *)
Definition render_page_number (toc : FPDF.t) (current_x : Q)
    (label link : string) : FPDF.t :=
  let toc := FPDF.set_x current_x toc in
  FPDF.multi_cell (FPDF.w toc - current_x - FPDF.r_margin toc)
    (FPDF.font_size toc * line_spacing) label XLMARGIN YNEXT link AlignR toc.

(** The body of the [with toc.use_text_style(text_style)] block. *)
Definition render_row (fuel : nat) (toc_pages : nat) (item : Bookmark)
    (toc : FPDF.t) : option FPDF.t :=
  let label := item_page_number toc_pages item in
  let link := "#" ++ link_name item in
  let toc := render_title toc item in
  let sp := measure_space toc (indent_of item) label in
  match accumulate fuel sp with
  | None => None
  | Some in_between =>
      let toc := render_fill sp in_between link in
      Some (render_page_number toc (current_x sp) label link)
  end.

(** [render_toc_item(toc, item)] *)
Definition render_toc_item (fuel : nat) (toc_pages : nat) (toc : FPDF.t)
    (item : Bookmark) : option FPDF.t :=
  let text_style := get_text_style (depth item) in
  let toc := FPDF.add_link (link_name item) toc in
  FPDF.use_text_style text_style (render_row fuel toc_pages item) toc.

(** The [for bookmark in self.bookmarks] loop of [create_toc]. *)
Fixpoint render_items (fuel : nat) (toc_pages : nat) (toc : FPDF.t)
    (bookmarks : list Bookmark) : option FPDF.t :=
  match bookmarks with
  | [] => Some toc
  | bookmark :: rest =>
      match render_toc_item fuel toc_pages toc bookmark with
      | None => None
      | Some toc => render_items fuel toc_pages toc rest
      end
  end.

(** [create_toc()]: the rendered document and its number of pages. *)
Definition create_toc (fuel : nat) (bookmarks : list Bookmark)
    (toc_pages : nat) : option (FPDF.t * nat) :=
  let toc := FPDF.add_page FPDF.new in
  match FPDF.use_text_style title_style
          (fun toc =>
             let toc := FPDF.set_title "Table of Contents" toc in
             Some (FPDF.cell 0 10 "Table of Contents" AlignC toc))
          toc with
  | None => None
  | Some toc =>
      match render_items fuel toc_pages toc bookmarks with
      | None => None
      | Some toc => Some (toc, FPDF.page_no toc)
      end
  end.

(** [merge_pdfs(toc_buffer, destination_pdf)]: the writer whose content
    goes to the destination file. *)
Definition merge_pdfs (reader : PdfReader) (bookmarks : list Bookmark)
    (toc_pages : nat) (toc_buffer : FPDF.t) : PdfWriter.t :=
  let writer :=
    fold_left (fun wr toc_page => PdfWriter.add_page toc_page wr)
      (toc_reader_pages toc_buffer) PdfWriter.new in
  let writer := PdfWriter.append (pages reader) writer in
  fold_left
    (fun wr bookmark =>
       let bookmark_page := page bookmark in
       let destination_page := (bookmark_page + toc_pages)%nat in
       let destination_name := "dest" ++ Py.str bookmark_page in
       PdfWriter.add_named_destination destination_name destination_page wr)
    bookmarks writer.

(** Lines 67-69: flatten, drop the first [skip_bookmarks], sort by page. *)
Definition prepare_bookmarks (reader : PdfReader) (skip_bookmarks : Z)
    : list Bookmark :=
  Py.sort page
    (Py.slice_from (extract_bookmarks reader (outline reader) 0)
       skip_bookmarks).

(** What a construction of [CreateTOC] leaves behind: the attributes of the
    object, the [toc_pages] value of every call to [create_toc], in order,
    the document of the last call and the merged output. *)
Record Run := mkRun {
  bookmarks : list Bookmark;
  toc_pages : nat;
  renders : list nat;
  toc_pdf : FPDF.t;
  merged : PdfWriter.t
}.

(** [CreateTOC(source_pdf, destination_pdf, skip_bookmarks)] *)
Definition CreateTOC (fuel : nat) (reader : PdfReader) (skip_bookmarks : Z)
    : option Run :=
  let bookmarks := prepare_bookmarks reader skip_bookmarks in
  let toc_pages := 1%nat in
  match create_toc fuel bookmarks toc_pages with
  | None => None
  | Some (toc_pdf, number_of_pages) =>
      if negb (number_of_pages =? toc_pages)%nat then
        let toc_pages' := number_of_pages in
        match create_toc fuel bookmarks toc_pages' with
        | None => None
        | Some (toc_pdf, _) =>
            Some (mkRun bookmarks toc_pages' [toc_pages; toc_pages'] toc_pdf
                    (merge_pdfs reader bookmarks toc_pages' toc_pdf))
        end
      else
        Some (mkRun bookmarks toc_pages [toc_pages] toc_pdf
                (merge_pdfs reader bookmarks toc_pages toc_pdf))
  end.

End Rendering.

(** * Vocabulary of the properties *)

(** A run of [n] fill characters. *)
Fixpoint dots (n : nat) : string :=
  match n with
  | O => ""
  | S n' => String "." (dots n')
  end.

(** The operations a document received between two states. *)
Definition emitted (before after : FPDF.t) : list Op :=
  skipn (List.length (FPDF.content before)) (FPDF.content after).

(** The three spans of a row differ by their alignment: the title is
    justified, the fill left-aligned, the page number right-aligned. *)
Definition is_span (a : Align) (op : Op) : bool :=
  match op, a with
  | OpMultiCell _ _ _ _ _ _ _ AlignJ, AlignJ => true
  | OpMultiCell _ _ _ _ _ _ _ AlignL, AlignL => true
  | OpMultiCell _ _ _ _ _ _ _ AlignR, AlignR => true
  | OpMultiCell _ _ _ _ _ _ _ AlignC, AlignC => true
  | _, _ => false
  end.

Definition op_text (op : Op) : string :=
  match op with
  | OpSetTitle t => t
  | OpAddLink n => n
  | OpCell _ _ _ _ _ t _ => t
  | OpMultiCell _ _ _ _ _ t _ _ => t
  end.

(** The abscissa, width and line height a cell was issued with. *)
Definition op_x (op : Op) : Q :=
  match op with
  | OpCell _ x _ _ _ _ _ => x
  | OpMultiCell _ x _ _ _ _ _ _ => x
  | _ => 0
  end.

Definition op_w (op : Op) : Q :=
  match op with
  | OpCell _ _ _ w _ _ _ => w
  | OpMultiCell _ _ _ w _ _ _ _ => w
  | _ => 0
  end.

Definition op_h (op : Op) : Q :=
  match op with
  | OpCell _ _ _ _ h _ _ => h
  | OpMultiCell _ _ _ _ h _ _ _ => h
  | _ => 0
  end.

(** The links of the spans among some operations. *)
Fixpoint span_links (ops : list Op) : list string :=
  match ops with
  | [] => []
  | OpMultiCell _ _ _ _ _ _ link _ :: rest => link :: span_links rest
  | _ :: rest => span_links rest
  end.

(** The names registered by [add_link] among some operations. *)
Fixpoint link_names (ops : list Op) : list string :=
  match ops with
  | [] => []
  | OpAddLink name :: rest => name :: link_names rest
  | _ :: rest => link_names rest
  end.

Definition fill_texts (ops : list Op) : list string :=
  map op_text (filter (is_span AlignL) ops).

Definition label_texts (ops : list Op) : list string :=
  map op_text (filter (is_span AlignR) ops).

(** The operation a [multi_cell] call adds to a document. *)
Definition multi_cell_op (pdf : FPDF.t) (ww hh : Q) (text link : string)
    (align : Align) : Op :=
  OpMultiCell (FPDF.page pdf) (FPDF.x pdf) (FPDF.y pdf) ww hh text link align.

Section Row.

Context {T : FPDF.Typeset}.

(** The loop condition of lines 169-172. *)
Definition fits (toc : FPDF.t) (clearance space : Q) (in_between : string)
    : Prop :=
  FPDF.get_string_width toc in_between + clearance < space.

(** A number of iterations after which the loop has stopped. *)
Definition fill_bound (toc : FPDF.t) (clearance space : Q) : nat :=
  Z.to_nat (Qceiling ((space - clearance) / FPDF.get_string_width toc ".")).

(** The document on entry to the [with] block of a row. *)
Definition row_entry (toc : FPDF.t) (item : Bookmark) : FPDF.t :=
  FPDF.enter_text_style (get_text_style (depth item))
    (FPDF.add_link (link_name item) toc).

(** The document when the title is about to be drawn, after [set_x]. *)
Definition title_start (toc : FPDF.t) (item : Bookmark) : FPDF.t :=
  let toc := row_entry toc item in
  FPDF.set_x (FPDF.l_margin toc + indent_of item) toc.

(** The document right after the title: its cursor is the title's ending
    cursor. *)
Definition title_end (toc : FPDF.t) (item : Bookmark) : FPDF.t :=
  render_title (row_entry toc item) item.

(** The space first computed at lines 158-160, before any retry. *)
Definition first_space (toc_pages : nat) (toc : FPDF.t) (item : Bookmark)
    : Q :=
  let te := title_end toc item in
  FPDF.w te - FPDF.get_x te
  - FPDF.get_string_width te (item_page_number toc_pages item)
  - FPDF.c_margin te * 2 - FPDF.r_margin te.

(** The outcome of lines 155-166 for a row. *)
Definition row_space (toc_pages : nat) (toc : FPDF.t) (item : Bookmark)
    : Space :=
  measure_space (title_end toc item) (indent_of item)
    (item_page_number toc_pages item).

(** The document after the dot-leader step of a row that accumulated
    [in_between]. *)
Definition fill_end (toc_pages : nat) (toc : FPDF.t) (item : Bookmark)
    (in_between : string) : FPDF.t :=
  render_fill (row_space toc_pages toc item) in_between
    ("#" ++ link_name item).

(** The document when the page number is about to be drawn, after
    [set_x(current_x)]. *)
Definition label_start (toc_pages : nat) (toc : FPDF.t) (item : Bookmark)
    (in_between : string) : FPDF.t :=
  FPDF.set_x (current_x (row_space toc_pages toc item))
    (fill_end toc_pages toc item in_between).

(** The document after a row that accumulated [in_between]. *)
Definition row_result (toc_pages : nat) (toc : FPDF.t) (item : Bookmark)
    (in_between : string) : FPDF.t :=
  FPDF.leave_text_style (get_text_style (depth item))
    (FPDF.add_link (link_name item) toc)
    (render_page_number (fill_end toc_pages toc item in_between)
       (current_x (row_space toc_pages toc item))
       (item_page_number toc_pages item) ("#" ++ link_name item)).

(** The three spans of a row, as the document receives them. *)
Definition title_op (toc : FPDF.t) (item : Bookmark) : Op :=
  let ts := title_start toc item in
  multi_cell_op ts (FPDF.epw ts - indent_of item)
    (FPDF.font_size ts * line_spacing) (title item)
    ("#" ++ link_name item) AlignJ.

Definition fill_op (toc_pages : nat) (toc : FPDF.t) (item : Bookmark)
    (in_between : string) : Op :=
  let sp := row_space toc_pages toc item in
  multi_cell_op (sp_toc sp)
    (FPDF.w (sp_toc sp) - current_x sp - FPDF.r_margin (sp_toc sp))
    (FPDF.font_size (sp_toc sp) * line_spacing) (Py.drop_last in_between)
    ("#" ++ link_name item) AlignL.

Definition label_op (toc_pages : nat) (toc : FPDF.t) (item : Bookmark)
    (in_between : string) : Op :=
  let ls := label_start toc_pages toc item in_between in
  multi_cell_op ls
    (FPDF.w ls - current_x (row_space toc_pages toc item) - FPDF.r_margin ls)
    (FPDF.font_size ls * line_spacing) (item_page_number toc_pages item)
    ("#" ++ link_name item) AlignR.

(** Whether the fill of a row is drawn (lines 168 and 175). *)
Definition fill_drawn (sp : Space) (in_between : string) : bool :=
  Py.lt 0 (in_between_space sp) && (1 <? Py.len in_between)%nat.

End Row.

(** ** A typesetter for the examples *)

(** Helvetica and Helvetica-Bold: the dot is 278 and each digit 556 font
    units wide.  The examples take every other glyph as wide as a digit. *)
Definition helvetica_width (f : FontFace) (c : ascii) : Z :=
  if Ascii.eqb c "." then 278%Z else 556%Z.

(** A text short enough for one line: it starts one cell margin right of
    the cursor, or ends one cell margin left of the right edge of the cell
    when it is right-aligned, after a page break when the line does not
    fit above the bottom margin. *)
Definition one_line_layout (pdf : FPDF.t) (ww hh : Q) (text : string)
    (align : Align) : Layout :=
  let pdf' := FPDF.perform_page_break_if_need_be hh pdf in
  let tw := inject_Z (FPDF.text_units helvetica_width (FPDF.font pdf) text)
            * FPDF.font_size pdf / 1000 in
  mkLayout (FPDF.page pdf')
    (match align with
     | AlignR => FPDF.x pdf + ww - FPDF.c_margin pdf
     | AlignC => FPDF.x pdf + (ww + tw) / 2
     | _ => FPDF.x pdf + FPDF.c_margin pdf + tw
     end)
    (FPDF.y pdf').

Definition one_line : FPDF.Typeset :=
  {| FPDF.char_width := helvetica_width; FPDF.layout := one_line_layout |}.

(** A page with the heading already drawn, as [create_toc] has it when the
    first row starts. *)
Definition heading_page : FPDF.t :=
  FPDF.leave_text_style title_style (FPDF.add_page FPDF.new)
    (FPDF.cell 0 10 "Table of Contents" AlignC
       (FPDF.set_title "Table of Contents"
          (FPDF.enter_text_style title_style (FPDF.add_page FPDF.new)))).

(** A title of [n] digits. *)
Fixpoint digits (n : nat) : string :=
  match n with
  | O => ""
  | S n' => String "0" (digits n')
  end.

(** ** Bookmark lists *)

(** Ordered by a key. *)
Definition le_by {A} (key : A -> nat) (a b : A) : Prop :=
  (key a <= key b)%nat.

Definition by_page : Bookmark -> Bookmark -> Prop := le_by page.

(** Sorted by ascending page. *)
Definition sorted_by_page (l : list Bookmark) : Prop := Sorted by_page l.

(** The flattened outline of a source, before any entry is dropped. *)
Definition flattened (reader : PdfReader) : list Bookmark :=
  extract_bookmarks reader (outline reader) 0.

(** A source with five outline entries, the middle ones nested, on
    ascending pages, and twelve pages. *)
Definition sample_reader : PdfReader :=
  mkPdfReader
    [ OutlineDest (mkDestination "Cover" 0);
      OutlineDest (mkDestination "Preface" 1);
      OutlineList [ OutlineDest (mkDestination "Thanks" 2);
                    OutlineDest (mkDestination "Notation" 3) ];
      OutlineDest (mkDestination "Chapter 1" 7) ]
    (map SourcePage (seq 0 12))
    dest_ref.

(** ** The rows of a rendered table *)

(** The operations of one row, as far as links and page numbers go: one
    link registered under the name of the bookmark, one page number, two
    or three spans, all bound to that link. *)
Definition is_row (toc_pages : nat) (item : Bookmark) (row : list Op)
    : Prop :=
  link_names row = [link_name item] /\
  label_texts row = [item_page_number toc_pages item] /\
  (List.length (span_links row) = 2%nat
   \/ List.length (span_links row) = 3%nat) /\
  Forall (eq ("#" ++ link_name item)) (span_links row).

(** A document that holds the heading followed by the rows of the given
    bookmarks, in order. *)
Definition is_table (toc_pages : nat) (bms : list Bookmark) (doc : FPDF.t)
    : Prop :=
  exists rows,
    FPDF.content doc = (FPDF.content heading_page ++ List.concat rows)%list /\
    Forall2 (is_row toc_pages) bms rows.

(** The destination [merge_pdfs] registers for a bookmark. *)
Definition destination_of (toc_pages : nat) (b : Bookmark) : string * nat :=
  ("dest" ++ Py.str (page b), (page b + toc_pages)%nat).

(** A source whose outline has forty flat entries, one per page, each
    with a title of seventy digits. *)
Definition long_reader : PdfReader :=
  mkPdfReader
    (map (fun n => OutlineDest (mkDestination (digits 70) n)) (seq 0 40))
    (map SourcePage (seq 0 40))
    dest_ref.

(** A source with two bookmarks on the same page. *)
Definition twin_reader : PdfReader :=
  mkPdfReader
    [ OutlineDest (mkDestination "Summary" 2);
      OutlineDest (mkDestination "Details" 2) ]
    (map SourcePage (seq 0 5))
    dest_ref.

(** A source with eighty-one bookmarks, one per page, each with a title
    of seventy digits but that of page 7, which has seventy-eight. *)
Definition edge_reader : PdfReader :=
  mkPdfReader
    (map (fun n =>
            OutlineDest
              (mkDestination (digits (if Nat.eqb n 7 then 78 else 70)) n))
       (seq 0 81))
    (map SourcePage (seq 0 81))
    dest_ref.

(** ** Vocabulary of the further properties *)

(** A bookmark [k] levels deeper. *)
Definition deepen (k : nat) (b : Bookmark) : Bookmark :=
  mkBookmark (depth b + k) (title b) (page b).

(** The number of destinations of an outline, at any nesting. *)
Fixpoint count_item (item : OutlineItem) : nat :=
  match item with
  | OutlineDest _ => 1
  | OutlineList sub => list_sum (map count_item sub)
  | OutlineOther => 0
  end.

Definition count_destinations (outlines : list OutlineItem) : nat :=
  list_sum (map count_item outlines).

(** The bookmarks of one page. *)
Definition on_page (p : nat) (l : list Bookmark) : list Bookmark :=
  filter (fun b => (page b =? p)%nat) l.

(** Two documents with the same unit, page format and margins. *)
Definition same_format (a b : FPDF.t) : Prop :=
  FPDF.k a = FPDF.k b /\ FPDF.w a = FPDF.w b /\ FPDF.h a = FPDF.h b /\
  FPDF.l_margin a = FPDF.l_margin b /\ FPDF.t_margin a = FPDF.t_margin b /\
  FPDF.r_margin a = FPDF.r_margin b /\ FPDF.b_margin a = FPDF.b_margin b /\
  FPDF.c_margin a = FPDF.c_margin b.

(** The same format and the same current font. *)
Definition same_setup (a b : FPDF.t) : Prop :=
  same_format a b /\ FPDF.font a = FPDF.font b.

(** A font as [set_font] leaves it: a family, in lower case, and a size. *)
Definition selected_font (f : FontFace) : Prop :=
  Py.is_empty (family f) = false /\ Py.lower (family f) = family f /\
  Py.truthy (size_pt f) = true.

(** The spans among some operations. *)
Definition spans (ops : list Op) : list Op :=
  filter (fun op => match op with
                    | OpMultiCell _ _ _ _ _ _ _ _ => true
                    | _ => false
                    end) ops.

(** An outline nested three levels deep, with an item that is neither a
    destination nor a list. *)
Definition nested_outline : list OutlineItem :=
  [ OutlineDest (mkDestination "Part" 0);
    OutlineList
      [ OutlineDest (mkDestination "Chapter" 1);
        OutlineOther;
        OutlineList [ OutlineDest (mkDestination "Section" 2) ] ];
    OutlineDest (mkDestination "Index" 9) ].

(** A font whose glyphs have no width. *)
Definition blank_font : FPDF.Typeset :=
  {| FPDF.char_width := fun _ _ => 0%Z; FPDF.layout := one_line_layout |}.

(** A source whose outline is not in page order. *)
Definition shuffled_reader : PdfReader :=
  mkPdfReader
    [ OutlineDest (mkDestination (digits 70) 5);
      OutlineDest (mkDestination (digits 70) 2);
      OutlineDest (mkDestination (digits 70) 9) ]
    (map SourcePage (seq 0 12))
    dest_ref.
(** * Properties *)

(** ** Python primitives *)

Lemma lt_true (a b : Q) : Py.lt a b = true <-> a < b.
Proof.
  unfold Py.lt. rewrite negb_true_iff.
  split; intro H.
  - apply Qnot_le_lt. intro Hle. apply Qle_bool_iff in Hle. congruence.
  - destruct (Qle_bool b a) eqn:E; [|reflexivity].
    apply Qle_bool_iff in E. exfalso. exact (Qlt_not_le _ _ H E).
Qed.

Lemma lt_false (a b : Q) : Py.lt a b = false <-> b <= a.
Proof.
  unfold Py.lt. rewrite negb_false_iff. apply Qle_bool_iff.
Qed.

Lemma append_assoc (a b c : string) : ((a ++ b) ++ c = a ++ (b ++ c))%string.
Proof. induction a as [|ch a IH]; simpl; [reflexivity | now rewrite IH]. Qed.

Lemma append_empty_r (a : string) : (a ++ "" = a)%string.
Proof. induction a as [|ch a IH]; simpl; [reflexivity | now rewrite IH]. Qed.

Lemma length_append (a b : string) :
  String.length (a ++ b) = (String.length a + String.length b)%nat.
Proof. induction a as [|ch a IH]; simpl; [reflexivity | now rewrite IH]. Qed.

Lemma drop_last_snoc (s : string) (c : ascii) :
  Py.drop_last (s ++ String c "") = s.
Proof.
  induction s as [|ch s IH]; simpl; [reflexivity|].
  rewrite IH. destruct s; reflexivity.
Qed.

Lemma dots_snoc (n : nat) : (dots n ++ "." = dots (S n))%string.
Proof. induction n as [|n IH]; simpl; [reflexivity | now rewrite IH]. Qed.

Lemma dots_length (n : nat) : String.length (dots n) = n.
Proof. induction n as [|n IH]; simpl; [reflexivity | now rewrite IH]. Qed.

Lemma drop_last_dots (n : nat) : Py.drop_last (dots (S n)) = dots n.
Proof. rewrite <- dots_snoc. apply drop_last_snoc. Qed.

Lemma inject_nat_succ (n : nat) :
  inject_Z (Z.of_nat (S n)) == inject_Z (Z.of_nat n) + 1.
Proof. rewrite Nat2Z.inj_succ. unfold Z.succ. now rewrite inject_Z_plus. Qed.

Lemma inject_nat_nonneg (n : nat) : 0 <= inject_Z (Z.of_nat n).
Proof.
  change 0 with (inject_Z 0). rewrite <- Zle_Qle. apply Nat2Z.is_nonneg.
Qed.

(** ** The dot-accumulation loop *)

Section Fill.

Context {T : FPDF.Typeset}.

Lemma text_units_app (f : FontFace) (a b : string) :
  FPDF.text_units FPDF.char_width f (a ++ b)
  = (FPDF.text_units FPDF.char_width f a
     + FPDF.text_units FPDF.char_width f b)%Z.
Proof.
  induction a as [|c a IH]; cbn [append FPDF.text_units]; [reflexivity|].
  rewrite IH. lia.
Qed.

(** The width of a text is additive. *)
Lemma get_string_width_app (toc : FPDF.t) (a b : string) :
  FPDF.get_string_width toc (a ++ b)
  == FPDF.get_string_width toc a + FPDF.get_string_width toc b.
Proof.
  unfold FPDF.get_string_width. rewrite text_units_app, inject_Z_plus.
  unfold Qdiv. ring.
Qed.

Lemma get_string_width_empty (toc : FPDF.t) :
  FPDF.get_string_width toc "" == 0.
Proof.
  unfold FPDF.get_string_width. cbn [FPDF.text_units].
  change (inject_Z 0) with 0. unfold Qdiv. ring.
Qed.

(** Appending one fill character adds the width of that character. *)
Lemma get_string_width_snoc (toc : FPDF.t) (s : string) :
  FPDF.get_string_width toc (s ++ ".")
  == FPDF.get_string_width toc s + FPDF.get_string_width toc ".".
Proof. apply get_string_width_app. Qed.

Lemma get_string_width_dots (toc : FPDF.t) (n : nat) :
  FPDF.get_string_width toc (dots n)
  == inject_Z (Z.of_nat n) * FPDF.get_string_width toc ".".
Proof.
  induction n as [|n IH].
  - change (inject_Z (Z.of_nat 0)) with 0. cbn [dots].
    rewrite get_string_width_empty. ring.
  - rewrite <- dots_snoc, get_string_width_snoc, IH, inject_nat_succ. ring.
Qed.

(** What the loop returns, when it returns: the start string followed by
    the least number of dots for which the condition fails. *)
Lemma fill_loop_spec (fuel : nat) (toc : FPDF.t) (cm space : Q) :
  forall s r,
    fill_loop fuel toc cm space s = Some r ->
    exists n, (n <= fuel)%nat /\ r = (s ++ dots n)%string /\
      (forall j, (j < n)%nat -> fits toc cm space (s ++ dots j)) /\
      ~ fits toc cm space r.
Proof.
  induction fuel as [|fuel IH]; intros s r; simpl;
    destruct (Py.lt _ space) eqn:E; intro H; try discriminate.
  - injection H as <-. exists 0%nat. rewrite append_empty_r.
    repeat split; [lia | intros j Hj; lia |].
    unfold fits. apply lt_false in E. now apply Qle_not_lt.
  - apply IH in H. destruct H as (n & Hn & -> & Hlt & Hstop).
    exists (S n). repeat split; [lia | | |].
    + now rewrite append_assoc.
    + intros [|j] Hj.
      * rewrite append_empty_r. now apply lt_true in E.
      * specialize (Hlt j ltac:(lia)). now rewrite append_assoc in Hlt.
    + exact Hstop.
  - injection H as <-. exists 0%nat. rewrite append_empty_r.
    repeat split; [lia | intros j Hj; lia |].
    unfold fits. apply lt_false in E. now apply Qle_not_lt.
Qed.

(** More fuel does not change a result. *)
Lemma fill_loop_mono (fuel fuel' : nat) (toc : FPDF.t) (cm space : Q) :
  (fuel <= fuel')%nat ->
  forall s r, fill_loop fuel toc cm space s = Some r ->
              fill_loop fuel' toc cm space s = Some r.
Proof.
  revert fuel'. induction fuel as [|fuel IH]; intros fuel' Hle s r; simpl.
  - destruct (Py.lt _ space) eqn:E; [discriminate|].
    intros H. destruct fuel'; simpl; now rewrite E.
  - destruct (Py.lt _ space) eqn:E.
    + destruct fuel' as [|fuel']; [lia|]. simpl. rewrite E.
      apply IH. lia.
    + intros H. destruct fuel'; simpl; now rewrite E.
Qed.

(** [fuel] iterations are enough once [fuel] dots cover the gap. *)
Lemma fill_loop_enough (toc : FPDF.t) (cm space : Q) :
  0 < FPDF.get_string_width toc "." ->
  forall fuel s,
    space - cm - FPDF.get_string_width toc s
      <= inject_Z (Z.of_nat fuel) * FPDF.get_string_width toc "." ->
    exists r, fill_loop fuel toc cm space s = Some r.
Proof.
  intros Hpos. induction fuel as [|fuel IH]; intros s Hgap; simpl;
    destruct (Py.lt _ space) eqn:E; try (eexists; reflexivity).
  - apply lt_true in E. exfalso.
    change (inject_Z (Z.of_nat 0)) with 0 in Hgap. lra.
  - apply IH. rewrite get_string_width_snoc.
    rewrite inject_nat_succ in Hgap. lra.
Qed.

Lemma fill_bound_covers (toc : FPDF.t) (cm space : Q) :
  0 < FPDF.get_string_width toc "." ->
  space - cm - FPDF.get_string_width toc ""
    <= inject_Z (Z.of_nat (fill_bound toc cm space))
       * FPDF.get_string_width toc ".".
Proof.
  intros Hpos. unfold fill_bound.
  set (d := FPDF.get_string_width toc ".") in *.
  set (g := space - cm).
  assert (Hc : g / d <= inject_Z (Z.of_nat (Z.to_nat (Qceiling (g / d))))).
  { eapply Qle_trans; [apply Qle_ceiling|].
    rewrite <- Zle_Qle. lia. }
  assert (Hg : g == (g / d) * d).
  { field. intro Hz. rewrite Hz in Hpos. exact (Qlt_irrefl _ Hpos). }
  rewrite get_string_width_empty.
  assert (Hm : (g / d) * d
               <= inject_Z (Z.of_nat (Z.to_nat (Qceiling (g / d)))) * d).
  { apply Qmult_le_compat_r; [exact Hc | now apply Qlt_le_weak]. }
  lra.
Qed.

End Fill.

(** ** One row: what it adds to the document *)

Lemma skipn_length_app {A} (l l' : list A) :
  skipn (List.length l) (l ++ l')%list = l'.
Proof. induction l as [|a l IH]; simpl; [reflexivity | exact IH]. Qed.

Lemma emitted_app (before after : FPDF.t) (ops : list Op) :
  FPDF.content after = (FPDF.content before ++ ops)%list ->
  emitted before after = ops.
Proof. intros H. unfold emitted. rewrite H. apply skipn_length_app. Qed.

Lemma get_text_style_cases (d : nat) :
  get_text_style d = depth_0_style \/ get_text_style d = default_style.
Proof.
  unfold get_text_style.
  assert (E : dict_get TOC_TEXT_STYLES ("depth_" ++ Py.str d)
              = if String.eqb "0" (Py.str d)
                then Some depth_0_style else None) by reflexivity.
  rewrite E. destruct (String.eqb "0" (Py.str d)); [left | right]; reflexivity.
Qed.

(** The styles of the rows have no margin: their block only switches the
    font. *)
Lemma enter_row_style (d : nat) (pdf : FPDF.t) :
  FPDF.enter_text_style (get_text_style d) pdf
  = FPDF.with_font pdf (FPDF.face_of (get_text_style d) (FPDF.font pdf)).
Proof. destruct (get_text_style_cases d) as [-> | ->]; reflexivity. Qed.

Lemma leave_row_style (d : nat) (before after : FPDF.t) :
  FPDF.leave_text_style (get_text_style d) before after
  = FPDF.with_font after
      (FPDF.restored_face (FPDF.font before) (FPDF.font after)).
Proof. destruct (get_text_style_cases d) as [-> | ->]; reflexivity. Qed.

(** The drawing calls add one operation each; the cursor calls none. *)
Lemma content_emit pdf op :
  FPDF.content (FPDF.emit pdf op) = (FPDF.content pdf ++ [op])%list.
Proof. reflexivity. Qed.

Lemma content_set_x v pdf :
  FPDF.content (FPDF.set_x v pdf) = FPDF.content pdf.
Proof. reflexivity. Qed.

Lemma content_ln hh pdf : FPDF.content (FPDF.ln hh pdf) = FPDF.content pdf.
Proof. reflexivity. Qed.

Lemma content_with_font pdf f :
  FPDF.content (FPDF.with_font pdf f) = FPDF.content pdf.
Proof. reflexivity. Qed.

Lemma content_add_link name pdf :
  FPDF.content (FPDF.add_link name pdf)
  = (FPDF.content pdf ++ [OpAddLink name])%list.
Proof. reflexivity. Qed.

Lemma content_multi_cell {T : FPDF.Typeset} ww hh text nx ny link align pdf :
  FPDF.content (FPDF.multi_cell ww hh text nx ny link align pdf)
  = (FPDF.content pdf ++ [multi_cell_op pdf ww hh text link align])%list.
Proof. reflexivity. Qed.

Section RowFacts.

Context {T : FPDF.Typeset}.

(** A row is its loop followed by the drawing of the result. *)
Lemma render_toc_item_eq fuel tp toc item :
  render_toc_item fuel tp toc item
  = match accumulate fuel (row_space tp toc item) with
    | None => None
    | Some in_between => Some (row_result tp toc item in_between)
    end.
Proof.
  unfold render_toc_item, FPDF.use_text_style, render_row, row_result,
    fill_end, label_start, row_space, title_end, row_entry.
  cbv zeta.
  match goal with |- context [accumulate fuel ?sp] =>
    destruct (accumulate fuel sp) end; reflexivity.
Qed.

(** A row returns exactly when its loop does. *)
Lemma render_toc_item_inv fuel tp toc item toc' :
  render_toc_item fuel tp toc item = Some toc' <->
  exists in_between,
    accumulate fuel (row_space tp toc item) = Some in_between /\
    toc' = row_result tp toc item in_between.
Proof.
  rewrite render_toc_item_eq.
  destruct (accumulate fuel (row_space tp toc item)) as [ib|]; split.
  - intros H. injection H as <-. exists ib. split; reflexivity.
  - intros (ib' & H & ->). injection H as <-. reflexivity.
  - discriminate.
  - intros (ib' & H & _). discriminate.
Qed.

Lemma measure_space_content toc indent label :
  FPDF.content (sp_toc (measure_space toc indent label)) = FPDF.content toc.
Proof.
  unfold measure_space. destruct (Py.lt _ 0); reflexivity.
Qed.

Lemma title_end_content toc item :
  FPDF.content (title_end toc item)
  = (FPDF.content toc
     ++ [OpAddLink (link_name item); title_op toc item])%list.
Proof.
  unfold title_end, render_title, title_op.
  rewrite content_multi_cell, content_set_x.
  unfold row_entry at 1. rewrite enter_row_style, content_with_font.
  rewrite content_add_link, <- app_assoc. reflexivity.
Qed.

Lemma row_space_content tp toc item :
  FPDF.content (sp_toc (row_space tp toc item))
  = (FPDF.content toc
     ++ [OpAddLink (link_name item); title_op toc item])%list.
Proof.
  unfold row_space. rewrite measure_space_content. apply title_end_content.
Qed.

Lemma fill_end_content tp toc item ib :
  FPDF.content (fill_end tp toc item ib)
  = (FPDF.content toc ++ [OpAddLink (link_name item); title_op toc item]
     ++ (if fill_drawn (row_space tp toc item) ib
         then [fill_op tp toc item ib] else []))%list.
Proof.
  unfold fill_end, render_fill, fill_drawn.
  destruct (Py.lt 0 _ && _)%bool.
  - rewrite content_multi_cell, row_space_content, <- app_assoc.
    reflexivity.
  - rewrite row_space_content. reflexivity.
Qed.

(** The operations of a row: the link, the title, the fill when it is
    drawn, the page number. *)
Lemma row_result_content tp toc item ib :
  FPDF.content (row_result tp toc item ib)
  = (FPDF.content toc
     ++ [OpAddLink (link_name item); title_op toc item]
     ++ (if fill_drawn (row_space tp toc item) ib
         then [fill_op tp toc item ib] else [])
     ++ [label_op tp toc item ib])%list.
Proof.
  unfold row_result. rewrite leave_row_style, content_with_font.
  unfold render_page_number. rewrite content_multi_cell, content_set_x.
  rewrite fill_end_content, <- !app_assoc. reflexivity.
Qed.

(** The clearance of a row is twice the cell margin of the document. *)
Lemma row_space_clearance tp toc item :
  clearance_margin (row_space tp toc item) = FPDF.c_margin toc * 2.
Proof.
  unfold row_space, measure_space.
  destruct (Py.lt _ 0); cbn [clearance_margin];
    unfold title_end, render_title, row_entry; rewrite enter_row_style;
    reflexivity.
Qed.

End RowFacts.

(** ** The dot leader *)

Section FillClaims.

Context {T : FPDF.Typeset}.

(** With exactly as much fuel as dots, the loop returns them. *)
Lemma fill_loop_exact (toc : FPDF.t) (cm space : Q) :
  forall n s,
    (forall j, (j < n)%nat -> fits toc cm space (s ++ dots j)) ->
    ~ fits toc cm space (s ++ dots n) ->
    fill_loop n toc cm space s = Some (s ++ dots n)%string.
Proof.
  induction n as [|n IH]; intros s Hlt Hstop; simpl.
  - rewrite append_empty_r in *.
    destruct (Py.lt _ space) eqn:E; [|reflexivity].
    apply lt_true in E. contradiction.
  - assert (E : Py.lt (FPDF.get_string_width toc s + cm) space = true).
    { apply lt_true. specialize (Hlt 0%nat ltac:(lia)).
      now rewrite append_empty_r in Hlt. }
    rewrite E.
    replace (s ++ String "." (dots n))%string
      with ((s ++ ".") ++ dots n)%string by (now rewrite append_assoc).
    apply IH.
    + intros j Hj. rewrite append_assoc. apply (Hlt (S j)). lia.
    + rewrite append_assoc. exact Hstop.
Qed.

(** What [accumulate] returns: a run of dots, the shortest one that does
    not fit when the space is positive, none otherwise. *)
Lemma accumulate_spec (fuel : nat) (sp : Space) (in_between : string) :
  accumulate fuel sp = Some in_between ->
  exists n, in_between = dots n /\
    if Py.lt 0 (in_between_space sp) then
      (forall j, (j < n)%nat ->
         fits (sp_toc sp) (clearance_margin sp) (in_between_space sp)
           (dots j)) /\
      ~ fits (sp_toc sp) (clearance_margin sp) (in_between_space sp)
          (dots n)
    else n = 0%nat.
Proof.
  unfold accumulate. destruct (Py.lt 0 (in_between_space sp)).
  - intros H. apply fill_loop_spec in H.
    destruct H as (n & _ & -> & Hlt & Hstop). exists n.
    split; [reflexivity|]. split; assumption.
  - intros H. injection H as <-. exists 0%nat. split; reflexivity.
Qed.

Lemma accumulate_mono (fuel fuel' : nat) (sp : Space) (r : string) :
  (fuel <= fuel')%nat ->
  accumulate fuel sp = Some r -> accumulate fuel' sp = Some r.
Proof.
  unfold accumulate. intros Hle. destruct (Py.lt 0 _); [|trivial].
  now apply fill_loop_mono.
Qed.

(** The operations one row adds. *)
Lemma row_emitted fuel tp toc item toc' :
  render_toc_item fuel tp toc item = Some toc' ->
  exists in_between,
    accumulate fuel (row_space tp toc item) = Some in_between /\
    toc' = row_result tp toc item in_between /\
    emitted toc toc'
    = ([OpAddLink (link_name item); title_op toc item]
       ++ (if fill_drawn (row_space tp toc item) in_between
           then [fill_op tp toc item in_between] else [])
       ++ [label_op tp toc item in_between])%list.
Proof.
  intros H. apply render_toc_item_inv in H. destruct H as (ib & Hacc & ->).
  exists ib. repeat split; [exact Hacc|].
  apply emitted_app. apply row_result_content.
Qed.

Lemma row_fill_texts tp toc item ib :
  fill_texts
    ([OpAddLink (link_name item); title_op toc item]
     ++ (if fill_drawn (row_space tp toc item) ib
         then [fill_op tp toc item ib] else [])
     ++ [label_op tp toc item ib])%list
  = if fill_drawn (row_space tp toc item) ib
    then [Py.drop_last ib] else [].
Proof.
  destruct (fill_drawn _ ib); reflexivity.
Qed.

(** C1.  In a row whose [in_between_space] is positive, the fill is drawn
    exactly when more than one dot was accumulated; the string drawn is the
    accumulated one without its last character, it fits
    ([get_string_width] of it plus [clearance_margin], twice the cell
    margin, is below [in_between_space]) and with one more dot it no
    longer does. *)
Theorem fill_fit fuel tp toc item toc' :
  render_toc_item fuel tp toc item = Some toc' ->
  let sp := row_space tp toc item in
  0 < in_between_space sp ->
  clearance_margin sp = FPDF.c_margin toc * 2 /\
  exists in_between,
    accumulate fuel sp = Some in_between /\
    fill_texts (emitted toc toc')
    = (if (1 <? Py.len in_between)%nat
       then [Py.drop_last in_between] else []) /\
    forall fill, In fill (fill_texts (emitted toc toc')) ->
      FPDF.get_string_width (sp_toc sp) fill + clearance_margin sp
        < in_between_space sp /\
      in_between_space sp
        <= FPDF.get_string_width (sp_toc sp) (fill ++ ".")
           + clearance_margin sp.
Proof.
  intros H sp Hpos. subst sp. split; [apply row_space_clearance|].
  apply row_emitted in H.
  destruct H as (ib & Hacc & _ & Hem). exists ib.
  split; [exact Hacc|]. rewrite Hem, row_fill_texts.
  apply lt_true in Hpos. unfold fill_drawn. rewrite Hpos.
  cbn [andb]. split; [reflexivity|].
  intros fill Hin. destruct (1 <? Py.len ib)%nat eqn:Elen; [|destruct Hin].
  destruct Hin as [<- | []].
  apply accumulate_spec in Hacc. destruct Hacc as (n & -> & Hn).
  rewrite Hpos in Hn. destruct Hn as (Hlt & Hstop).
  apply Nat.ltb_lt in Elen. unfold Py.len in Elen.
  rewrite dots_length in Elen.
  destruct n as [|n]; [lia|]. rewrite drop_last_dots, dots_snoc. split.
  - apply Hlt. lia.
  - apply Qnot_lt_le. exact Hstop.
Qed.

(** With a dot of positive width the loop returns, and returns the same
    run of dots for every sufficient number of iterations. *)
Lemma fill_loop_returns (toc : FPDF.t) (cm space : Q) :
  0 < FPDF.get_string_width toc "." ->
  exists n,
    (forall fuel, (n <= fuel)%nat ->
       fill_loop fuel toc cm space "" = Some (dots n)) /\
    ~ (FPDF.get_string_width toc (dots n) + cm < space).
Proof.
  intros Hpos.
  destruct (fill_loop_enough toc cm space Hpos (fill_bound toc cm space) ""
              (fill_bound_covers toc cm space Hpos)) as (r & Hr).
  apply fill_loop_spec in Hr. destruct Hr as (n & _ & -> & Hlt & Hstop).
  exists n. split; [|exact Hstop].
  intros fuel Hle. apply (fill_loop_mono n fuel); [exact Hle|].
  change (dots n) with ("" ++ dots n)%string.
  apply fill_loop_exact; assumption.
Qed.

(** A row whose font has a dot of positive width returns. *)
Lemma accumulate_returns (sp : Space) :
  0 < FPDF.get_string_width (sp_toc sp) "." ->
  exists fuel in_between, accumulate fuel sp = Some in_between.
Proof.
  intros Hdot. unfold accumulate. destruct (Py.lt 0 (in_between_space sp)).
  - destruct (fill_loop_returns (sp_toc sp) (clearance_margin sp)
                (in_between_space sp) Hdot) as (n & Hn & _).
    exists n, (dots n). apply Hn. lia.
  - exists 0%nat, "". reflexivity.
Qed.

Lemma render_toc_item_returns tp toc item :
  0 < FPDF.get_string_width (sp_toc (row_space tp toc item)) "." ->
  exists fuel toc', render_toc_item fuel tp toc item = Some toc'.
Proof.
  intros Hdot.
  destruct (accumulate_returns (row_space tp toc item) Hdot)
    as (fuel & ib & H).
  exists fuel, (row_result tp toc item ib).
  rewrite render_toc_item_eq, H. reflexivity.
Qed.

(** C10.  When the dot has a positive width, the loop stops: for some [n]
    it returns the run of [n] dots whenever it is given at least [n]
    iterations, and the loop condition fails on that run. *)
Theorem fill_loop_terminates (toc : FPDF.t) (cm space : Q) :
  0 < FPDF.get_string_width toc "." ->
  exists n,
    (forall fuel, (n <= fuel)%nat ->
       fill_loop fuel toc cm space "" = Some (dots n)) /\
    ~ (FPDF.get_string_width toc (dots n) + cm < space).
Proof. exact (fill_loop_returns toc cm space). Qed.


(** An accumulated string of more than one character leaves, once its
    last character is dropped, a string that is not empty and has a
    positive width. *)
Lemma accumulate_long (fuel : nat) (sp : Space) (in_between : string) :
  accumulate fuel sp = Some in_between ->
  0 < in_between_space sp ->
  (1 < Py.len in_between)%nat ->
  Py.drop_last in_between <> "" /\
  0 < FPDF.get_string_width (sp_toc sp) (Py.drop_last in_between).
Proof.
  intros Hacc Hpos Hlen.
  apply accumulate_spec in Hacc. destruct Hacc as (n & -> & Hn).
  apply lt_true in Hpos. rewrite Hpos in Hn. destruct Hn as (Hlt & Hstop).
  unfold Py.len in Hlen. rewrite dots_length in Hlen.
  destruct n as [|[|m]]; try lia.
  rewrite drop_last_dots. split; [discriminate|].
  specialize (Hlt 1%nat ltac:(lia)). unfold fits in Hlt, Hstop.
  apply Qnot_lt_le in Hstop.
  rewrite get_string_width_dots in Hlt.
  rewrite get_string_width_dots in Hstop.
  rewrite get_string_width_dots.
  rewrite inject_nat_succ in Hstop.
  set (d := FPDF.get_string_width _ ".") in *.
  assert (E : (inject_Z (Z.of_nat (S m)) + 1) * d
              == inject_Z (Z.of_nat (S m)) * d + d) by ring.
  rewrite E in Hstop.
  assert (E1 : inject_Z (Z.of_nat 1) * d == d) by ring.
  rewrite E1 in Hlt.
  set (X := inject_Z (Z.of_nat (S m)) * d) in *.
  lra.
Qed.

Lemma fill_drawn_true (sp : Space) (in_between : string) :
  fill_drawn sp in_between = true <->
  0 < in_between_space sp /\ (1 < Py.len in_between)%nat.
Proof.
  unfold fill_drawn. rewrite andb_true_iff, lt_true, Nat.ltb_lt.
  reflexivity.
Qed.

(** The only left-aligned span of a row is its fill. *)
Lemma row_fill_span tp toc item ib op :
  In op ([OpAddLink (link_name item); title_op toc item]
         ++ (if fill_drawn (row_space tp toc item) ib
             then [fill_op tp toc item ib] else [])
         ++ [label_op tp toc item ib])%list ->
  is_span AlignL op = true ->
  fill_drawn (row_space tp toc item) ib = true /\
  op_text op = Py.drop_last ib.
Proof.
  intros Hin Hspan.
  destruct (fill_drawn (row_space tp toc item) ib); cbn [app In] in Hin.
  - destruct Hin as [<- | [<- | [<- | [<- | []]]]];
      try discriminate Hspan. split; reflexivity.
  - destruct Hin as [<- | [<- | [<- | []]]]; discriminate Hspan.
Qed.

(** C6.  A fill is drawn only in a row whose [in_between_space], as
    recomputed after a forced line break when there was one, is positive
    and whose accumulated string has more than one character; the string
    drawn is then not empty and its width is positive. *)
Theorem fill_never_empty fuel tp toc item toc' :
  render_toc_item fuel tp toc item = Some toc' ->
  forall op, In op (emitted toc toc') -> is_span AlignL op = true ->
  let sp := row_space tp toc item in
  exists in_between,
    accumulate fuel sp = Some in_between /\
    0 < in_between_space sp /\
    (1 < Py.len in_between)%nat /\
    op_text op = Py.drop_last in_between /\
    op_text op <> "" /\
    0 < FPDF.get_string_width (sp_toc sp) (op_text op).
Proof.
  intros H op Hin Hspan sp. subst sp. apply row_emitted in H.
  destruct H as (ib & Hacc & _ & Hem). exists ib.
  rewrite Hem in Hin.
  destruct (row_fill_span tp toc item ib op Hin Hspan) as (Hdrawn & Htext).
  apply fill_drawn_true in Hdrawn. destruct Hdrawn as (Hpos & Hlen).
  destruct (accumulate_long fuel _ ib Hacc Hpos Hlen) as (Hne & Hw).
  rewrite Htext. repeat split; assumption.
Qed.

End FillClaims.

(** A row with a title of seventy digits leaves room for a short fill. *)
Lemma fill_fit_witness :
  let item := mkBookmark 0 (digits 70) 3 in
  let sp := row_space (T := one_line) 1 heading_page item in
  let toc' := row_result (T := one_line) 1 heading_page item (dots 16) in
  render_toc_item (T := one_line) 40 1 heading_page item = Some toc' /\
  0 < in_between_space sp /\
  clearance_margin sp = FPDF.c_margin heading_page * 2 /\
  exists in_between,
    accumulate (T := one_line) 40 sp = Some in_between /\
    fill_texts (emitted heading_page toc')
    = (if (1 <? Py.len in_between)%nat
       then [Py.drop_last in_between] else []) /\
    forall fill, In fill (fill_texts (emitted heading_page toc')) ->
      FPDF.get_string_width (T := one_line) (sp_toc sp) fill
        + clearance_margin sp < in_between_space sp /\
      in_between_space sp
        <= FPDF.get_string_width (T := one_line) (sp_toc sp) (fill ++ ".")
           + clearance_margin sp.
Proof.
  intros item sp toc'.
  assert (H : render_toc_item (T := one_line) 40 1 heading_page item
              = Some toc') by (vm_compute; reflexivity).
  assert (Hpos : 0 < in_between_space sp) by (vm_compute; reflexivity).
  split; [exact H|]. split; [exact Hpos|].
  exact (fill_fit (T := one_line) 40 1 heading_page item toc' H Hpos).
Defined.

Lemma fill_loop_terminates_witness :
  0 < FPDF.get_string_width (T := one_line) heading_page "." /\
  exists n,
    (forall fuel, (n <= fuel)%nat ->
       fill_loop (T := one_line) fuel heading_page 2 20 "" = Some (dots n))
    /\ ~ (FPDF.get_string_width (T := one_line) heading_page (dots n) + 2
          < 20).
Proof.
  assert (Hpos : 0 < FPDF.get_string_width (T := one_line) heading_page ".")
    by (vm_compute; reflexivity).
  split; [exact Hpos|].
  exact (fill_loop_terminates (T := one_line) heading_page 2 20 Hpos).
Defined.

Lemma fill_never_empty_witness :
  let item := mkBookmark 0 (digits 70) 3 in
  let sp := row_space (T := one_line) 1 heading_page item in
  let toc' := row_result (T := one_line) 1 heading_page item (dots 16) in
  let op := fill_op (T := one_line) 1 heading_page item (dots 16) in
  render_toc_item (T := one_line) 40 1 heading_page item = Some toc' /\
  In op (emitted heading_page toc') /\
  is_span AlignL op = true /\
  exists in_between,
    accumulate (T := one_line) 40 sp = Some in_between /\
    0 < in_between_space sp /\
    (1 < Py.len in_between)%nat /\
    op_text op = Py.drop_last in_between /\
    op_text op <> "" /\
    0 < FPDF.get_string_width (T := one_line) (sp_toc sp) (op_text op).
Proof.
  intros item sp toc' op.
  assert (H : render_toc_item (T := one_line) 40 1 heading_page item
              = Some toc') by (vm_compute; reflexivity).
  assert (Hin : In op (emitted heading_page toc')).
  { vm_compute. right. right. left. reflexivity. }
  assert (Hspan : is_span AlignL op = true) by (vm_compute; reflexivity).
  split; [exact H|]. split; [exact Hin|]. split; [exact Hspan|].
  exact (fill_never_empty (T := one_line) 40 1 heading_page item toc' H
           op Hin Hspan).
Defined.

(** ** The space after the title and the page number *)

Lemma set_x_nonneg (v : Q) (pdf : FPDF.t) :
  0 <= v -> FPDF.x (FPDF.set_x v pdf) = v.
Proof.
  intros H. unfold FPDF.set_x, FPDF.with_cursor. cbn [FPDF.x].
  apply Qle_bool_iff in H. rewrite H. reflexivity.
Qed.

Lemma indent_nonneg (item : Bookmark) : 0 <= indent_of item.
Proof.
  unfold indent_of, level_indent. apply Qmult_le_0_compat.
  - apply inject_nat_nonneg.
  - discriminate.
Qed.

Lemma indented_nonneg (lm : Q) (item : Bookmark) :
  0 <= lm -> 0 <= lm + indent_of item.
Proof. intros H. pose proof (indent_nonneg item). lra. Qed.

Section SpaceClaims.

Context {T : FPDF.Typeset}.

(** The page geometry is the same all along a row. *)
Lemma multi_cell_geometry ww hh text nx ny link align pdf :
  let pdf' := FPDF.multi_cell ww hh text nx ny link align pdf in
  FPDF.w pdf' = FPDF.w pdf /\ FPDF.l_margin pdf' = FPDF.l_margin pdf /\
  FPDF.r_margin pdf' = FPDF.r_margin pdf /\
  FPDF.c_margin pdf' = FPDF.c_margin pdf /\ FPDF.font pdf' = FPDF.font pdf.
Proof. repeat split. Qed.

Lemma title_end_geometry toc item :
  let te := title_end toc item in
  FPDF.w te = FPDF.w toc /\ FPDF.l_margin te = FPDF.l_margin toc /\
  FPDF.r_margin te = FPDF.r_margin toc /\
  FPDF.c_margin te = FPDF.c_margin toc.
Proof.
  unfold title_end, render_title, row_entry. rewrite enter_row_style.
  repeat split.
Qed.

(** The two outcomes of the measuring step, for any document. *)
Lemma measure_space_break te indent label :
  FPDF.w te - FPDF.get_x te - FPDF.get_string_width te label
    - FPDF.c_margin te * 2 - FPDF.r_margin te < 0 ->
  measure_space te indent label
  = let toc := FPDF.set_x (FPDF.l_margin te + indent) (FPDF.ln None te) in
    mkSpace toc (FPDF.c_margin te * 2) (FPDF.x toc)
      (FPDF.w te - FPDF.x toc - FPDF.get_string_width te label
       - FPDF.r_margin te).
Proof.
  intros H. apply lt_true in H. unfold measure_space. rewrite H.
  reflexivity.
Qed.

Lemma measure_space_stay te indent label :
  0 <= FPDF.w te - FPDF.get_x te - FPDF.get_string_width te label
       - FPDF.c_margin te * 2 - FPDF.r_margin te ->
  measure_space te indent label
  = mkSpace te (FPDF.c_margin te * 2) (FPDF.get_x te)
      (FPDF.w te - FPDF.get_x te - FPDF.get_string_width te label
       - FPDF.c_margin te * 2 - FPDF.r_margin te).
Proof.
  intros H. apply lt_false in H. unfold measure_space. rewrite H.
  reflexivity.
Qed.

(** The two outcomes of the measuring step of a row. *)
Lemma row_space_cases tp toc item :
  0 <= FPDF.l_margin toc ->
  let te := title_end toc item in
  let label := item_page_number tp item in
  let sp := row_space tp toc item in
  (first_space tp toc item < 0 ->
     sp_toc sp
     = FPDF.set_x (FPDF.l_margin te + indent_of item) (FPDF.ln None te) /\
     FPDF.x (sp_toc sp)
     = FPDF.l_margin toc + inject_Z (Z.of_nat (depth item)) * level_indent /\
     FPDF.y (sp_toc sp) = FPDF.y te + FPDF.lasth te /\
     current_x sp = FPDF.x (sp_toc sp) /\
     in_between_space sp
     = FPDF.w toc - FPDF.x (sp_toc sp) - FPDF.get_string_width te label
       - FPDF.r_margin toc) /\
  (0 <= first_space tp toc item ->
     sp_toc sp = te /\
     current_x sp = FPDF.get_x te /\
     in_between_space sp = first_space tp toc item).
Proof.
  intros Hl te label sp.
  destruct (title_end_geometry toc item) as (Ew & El & Er & Ec).
  fold te in Ew, El, Er, Ec.
  unfold first_space. fold te. fold label.
  assert (Esp : sp = measure_space te (indent_of item) label) by reflexivity.
  clearbody sp te. split; intros H.
  - rewrite (measure_space_break te (indent_of item) label H) in Esp.
    subst sp. cbn [sp_toc current_x in_between_space].
    assert (Ex : FPDF.x (FPDF.set_x (FPDF.l_margin te + indent_of item)
                           (FPDF.ln None te))
                 = FPDF.l_margin toc + indent_of item).
    { rewrite El. apply set_x_nonneg. now apply indented_nonneg. }
    rewrite Ex, Ew, Er. repeat split.
  - rewrite (measure_space_stay te (indent_of item) label H) in Esp.
    subst sp. repeat split.
Qed.

(** C2.  When the space first computed after the title (page width minus
    current x minus label width minus clearance minus right margin) is
    negative, the row takes a line break ([ln] then [set_x]): x becomes
    the left margin plus [depth * level_indent], y moves down by the
    height of the last cell, and the space is recomputed as page width
    minus that x minus label width minus right margin, without the
    clearance.  When it is zero or positive the document is left as the
    title left it and the space stands. *)
Theorem forced_line_break tp toc item :
  0 <= FPDF.l_margin toc ->
  let te := title_end toc item in
  let label := item_page_number tp item in
  let sp := row_space tp toc item in
  (first_space tp toc item < 0 ->
     sp_toc sp
     = FPDF.set_x (FPDF.l_margin te + indent_of item) (FPDF.ln None te) /\
     FPDF.x (sp_toc sp)
     = FPDF.l_margin toc + inject_Z (Z.of_nat (depth item)) * level_indent /\
     FPDF.y (sp_toc sp) = FPDF.y te + FPDF.lasth te /\
     current_x sp = FPDF.x (sp_toc sp) /\
     in_between_space sp
     = FPDF.w toc - FPDF.x (sp_toc sp) - FPDF.get_string_width te label
       - FPDF.r_margin toc) /\
  (0 <= first_space tp toc item ->
     sp_toc sp = te /\
     current_x sp = FPDF.get_x te /\
     in_between_space sp = first_space tp toc item).
Proof. exact (row_space_cases tp toc item). Qed.

End SpaceClaims.

Lemma forced_line_break_witness :
  let item := mkBookmark 0 (digits 79) 3 in
  let te := title_end (T := one_line) heading_page item in
  let label := item_page_number 1 item in
  let sp := row_space (T := one_line) 1 heading_page item in
  0 <= FPDF.l_margin heading_page /\
  first_space (T := one_line) 1 heading_page item < 0 /\
  FPDF.x (sp_toc sp)
  = FPDF.l_margin heading_page
    + inject_Z (Z.of_nat (depth item)) * level_indent /\
  in_between_space sp
  = FPDF.w heading_page - FPDF.x (sp_toc sp)
    - FPDF.get_string_width (T := one_line) te label
    - FPDF.r_margin heading_page.
Proof.
  intros item te label sp.
  assert (Hl : 0 <= FPDF.l_margin heading_page) by (vm_compute; discriminate).
  assert (Hneg : first_space (T := one_line) 1 heading_page item < 0)
    by (vm_compute; reflexivity).
  destruct (forced_line_break (T := one_line) 1 heading_page item Hl)
    as (Hbreak & _).
  destruct (Hbreak Hneg) as (_ & Hx & _ & _ & Hspace).
  split; [exact Hl|]. split; [exact Hneg|].
  split; [exact Hx | exact Hspace].
Defined.

(** ** The page number *)

Section LabelClaims.

Context {T : FPDF.Typeset}.

Lemma measure_space_geometry te indent label :
  let toc := sp_toc (measure_space te indent label) in
  FPDF.w toc = FPDF.w te /\ FPDF.l_margin toc = FPDF.l_margin te /\
  FPDF.r_margin toc = FPDF.r_margin te /\ FPDF.font toc = FPDF.font te /\
  FPDF.k toc = FPDF.k te.
Proof.
  unfold measure_space. destruct (Py.lt _ 0); repeat split.
Qed.

Lemma render_fill_geometry sp ib link :
  let toc := render_fill sp ib link in
  FPDF.w toc = FPDF.w (sp_toc sp) /\
  FPDF.l_margin toc = FPDF.l_margin (sp_toc sp) /\
  FPDF.r_margin toc = FPDF.r_margin (sp_toc sp) /\
  FPDF.font toc = FPDF.font (sp_toc sp) /\
  FPDF.k toc = FPDF.k (sp_toc sp).
Proof.
  unfold render_fill. destruct (_ && _)%bool; repeat split.
Qed.

Lemma title_end_font toc item :
  FPDF.font (title_end toc item) = FPDF.font (row_entry toc item) /\
  FPDF.k (title_end toc item) = FPDF.k (row_entry toc item).
Proof. split; reflexivity. Qed.

(** The geometry and the font when the page number is drawn. *)
Lemma label_start_geometry tp toc item ib :
  let ls := label_start tp toc item ib in
  FPDF.w ls = FPDF.w toc /\ FPDF.l_margin ls = FPDF.l_margin toc /\
  FPDF.r_margin ls = FPDF.r_margin toc /\
  FPDF.font_size ls = FPDF.font_size (row_entry toc item).
Proof.
  intros ls. subst ls. unfold label_start, fill_end, row_space.
  set (te := title_end toc item).
  destruct (title_end_geometry toc item) as (Ew & El & Er & _).
  destruct (title_end_font toc item) as (Ef & Ek).
  fold te in Ew, El, Er, Ef, Ek.
  set (sp := measure_space te (indent_of item) (item_page_number tp item)).
  destruct (measure_space_geometry te (indent_of item)
              (item_page_number tp item)) as (Mw & Ml & Mr & Mf & Mk).
  fold sp in Mw, Ml, Mr, Mf, Mk.
  destruct (render_fill_geometry sp ib ("#" ++ link_name item))
    as (Fw & Fl & Fr & Ff & Fk).
  set (fe := render_fill sp ib ("#" ++ link_name item)) in *.
  clearbody fe sp te.
  assert (Sw : FPDF.w (FPDF.set_x (current_x sp) fe) = FPDF.w fe)
    by reflexivity.
  assert (Sl : FPDF.l_margin (FPDF.set_x (current_x sp) fe)
               = FPDF.l_margin fe) by reflexivity.
  assert (Sr : FPDF.r_margin (FPDF.set_x (current_x sp) fe)
               = FPDF.r_margin fe) by reflexivity.
  assert (Sf : FPDF.font_size (FPDF.set_x (current_x sp) fe)
               = FPDF.font_size (row_entry toc item)).
  { unfold FPDF.font_size.
    change (FPDF.font (FPDF.set_x (current_x sp) fe)) with (FPDF.font fe).
    change (FPDF.k (FPDF.set_x (current_x sp) fe)) with (FPDF.k fe).
    congruence. }
  repeat split; congruence.
Qed.

Lemma row_result_cursor tp toc item ib :
  let ls := label_start tp toc item ib in
  let op := label_op tp toc item ib in
  FPDF.x (row_result tp toc item ib) = FPDF.l_margin ls /\
  FPDF.y (row_result tp toc item ib)
  = lay_y (FPDF.layout ls (op_w op) (op_h op) (op_text op) AlignR)
    + op_h op.
Proof.
  unfold row_result. rewrite leave_row_style. split; reflexivity.
Qed.

Lemma label_op_fields tp toc item ib :
  let op := label_op tp toc item ib in
  let ls := label_start tp toc item ib in
  is_span AlignR op = true /\
  op_text op = item_page_number tp item /\
  op_x op = FPDF.x ls /\
  op_w op
  = FPDF.w ls - current_x (row_space tp toc item) - FPDF.r_margin ls /\
  op_h op = FPDF.font_size ls * line_spacing.
Proof.
  unfold label_op, multi_cell_op. cbv zeta.
  cbn [is_span op_text op_x op_w op_h]. repeat split.
Qed.

Lemma label_start_x tp toc item ib :
  0 <= current_x (row_space tp toc item) ->
  FPDF.x (label_start tp toc item ib) = current_x (row_space tp toc item).
Proof. intros H. unfold label_start. now apply set_x_nonneg. Qed.

Lemma last_of_row (a b c : Op) (mid : list Op) :
  last ([a; b] ++ mid ++ [c])%list a = c.
Proof.
  rewrite app_assoc. apply last_last.
Qed.

(** C7, as the code has it.  The page number is the last operation of a
    row: right-aligned, drawn at [current_x] in a cell that reaches the
    right margin.  [current_x] is the title's ending x when no line break
    was forced and the indented left margin when one was.  The row ends
    with x at the left margin and y one line height under the top of the
    line of the page number.  A row whose dot has a positive width does
    return. *)
Theorem page_number_position tp toc item :
  0 <= FPDF.l_margin toc ->
  0 <= FPDF.x (title_end toc item) ->
  let sp := row_space tp toc item in
  (forall fuel toc',
     render_toc_item fuel tp toc item = Some toc' ->
     exists in_between,
       accumulate fuel sp = Some in_between /\
       let op := label_op tp toc item in_between in
       last (emitted toc toc') (OpAddLink (link_name item)) = op /\
       is_span AlignR op = true /\
       op_text op = item_page_number tp item /\
       (0 <= first_space tp toc item ->
          current_x sp = FPDF.x (title_end toc item)) /\
       (first_space tp toc item < 0 ->
          current_x sp
          = FPDF.l_margin toc
            + inject_Z (Z.of_nat (depth item)) * level_indent) /\
       op_x op = current_x sp /\
       op_w op = FPDF.w toc - current_x sp - FPDF.r_margin toc /\
       op_h op = FPDF.font_size (row_entry toc item) * line_spacing /\
       FPDF.x toc' = FPDF.l_margin toc /\
       FPDF.y toc'
       = lay_y (FPDF.layout (label_start tp toc item in_between)
                  (op_w op) (op_h op) (op_text op) AlignR)
         + op_h op) /\
  (0 < FPDF.get_string_width (sp_toc sp) "." ->
   exists fuel toc', render_toc_item fuel tp toc item = Some toc').
Proof.
  intros Hl Hx sp. split; [|apply render_toc_item_returns].
  intros fuel toc' H. apply row_emitted in H.
  destruct H as (ib & Hacc & -> & Hem). exists ib.
  split; [exact Hacc|]. intros op.
  destruct (row_space_cases tp toc item Hl) as (Hbreak & Hstay).
  destruct (label_start_geometry tp toc item ib) as (Ew & El & Er & Ef).
  destruct (row_result_cursor tp toc item ib) as (Rx & Ry).
  destruct (label_op_fields tp toc item ib) as (Os & Ot & Ox & Ow & Oh).
  pose proof (label_start_x tp toc item ib) as Lx.
  assert (Hlast : last (emitted toc (row_result tp toc item ib))
                     (OpAddLink (link_name item)) = op)
    by (rewrite Hem; apply last_of_row).
  fold op in Ry, Os, Ot, Ox, Ow, Oh. fold sp in Ow, Lx, Hbreak, Hstay.
  clearbody op sp.
  assert (Hcx : 0 <= current_x sp).
  { destruct (Qlt_le_dec (first_space tp toc item) 0) as [Hneg | Hpos].
    - destruct (Hbreak Hneg) as (_ & Ex & _ & Ec & _).
      rewrite Ec, Ex. apply (indented_nonneg _ item Hl).
    - destruct (Hstay Hpos) as (_ & Ec & _). rewrite Ec. exact Hx. }
  split; [exact Hlast|].
  split; [exact Os|]. split; [exact Ot|].
  split; [intros Hpos; apply (Hstay Hpos)|].
  split.
  { intros Hneg. destruct (Hbreak Hneg) as (_ & Ex & _ & Ec & _).
    now rewrite Ec. }
  split; [rewrite Ox; exact (Lx Hcx)|].
  split; [rewrite Ow, Ew, Er; reflexivity|].
  split; [rewrite Oh, Ef; reflexivity|].
  split; [rewrite Rx; exact El | exact Ry].
Qed.

End LabelClaims.

(** A title that ends too close to the right margin: the page number is
    drawn from the left margin, not from where the title ended. *)
Lemma label_at_title_end_fails :
  ~ (forall fuel tp toc item toc',
       render_toc_item (T := one_line) fuel tp toc item = Some toc' ->
       forall op, In op (emitted toc toc') -> is_span AlignR op = true ->
       op_x op == FPDF.x (title_end (T := one_line) toc item)).
Proof.
  intros H.
  pose (item := mkBookmark 0 (digits 79) 3).
  pose (toc' := row_result (T := one_line) 1 heading_page item (dots 158)).
  pose (op := label_op (T := one_line) 1 heading_page item (dots 158)).
  assert (Hrun : render_toc_item (T := one_line) 200 1 heading_page item
                 = Some toc') by (vm_compute; reflexivity).
  assert (Hin : In op (emitted heading_page toc')).
  { vm_compute. right. right. right. left. reflexivity. }
  assert (Hspan : is_span AlignR op = true) by (vm_compute; reflexivity).
  specialize (H 200%nat 1%nat heading_page item toc' Hrun op Hin Hspan).
  vm_compute in H. discriminate H.
Qed.

Lemma page_number_position_witness :
  let item := mkBookmark 0 (digits 79) 3 in
  let toc' := row_result (T := one_line) 1 heading_page item (dots 158) in
  let sp := row_space (T := one_line) 1 heading_page item in
  0 <= FPDF.l_margin heading_page /\
  0 <= FPDF.x (title_end (T := one_line) heading_page item) /\
  render_toc_item (T := one_line) 200 1 heading_page item = Some toc' /\
  0 < FPDF.get_string_width (T := one_line) (sp_toc sp) "." /\
  (exists in_between,
     accumulate (T := one_line) 200 sp = Some in_between /\
     op_x (label_op (T := one_line) 1 heading_page item in_between)
     = current_x sp /\
     FPDF.x toc' = FPDF.l_margin heading_page) /\
  exists fuel toc'',
    render_toc_item (T := one_line) fuel 1 heading_page item = Some toc''.
Proof.
  intros item toc' sp.
  assert (Hl : 0 <= FPDF.l_margin heading_page) by (vm_compute; discriminate).
  assert (Hx : 0 <= FPDF.x (title_end (T := one_line) heading_page item))
    by (vm_compute; discriminate).
  assert (Hrun : render_toc_item (T := one_line) 200 1 heading_page item
                 = Some toc') by (vm_compute; reflexivity).
  assert (Hdot : 0 < FPDF.get_string_width (T := one_line) (sp_toc sp) ".")
    by (vm_compute; reflexivity).
  split; [exact Hl|]. split; [exact Hx|]. split; [exact Hrun|].
  split; [exact Hdot|].
  destruct (page_number_position (T := one_line) 1 heading_page item Hl Hx)
    as (Hrow & Hret).
  split; [|exact (Hret Hdot)].
  destruct (Hrow 200%nat toc' Hrun)
    as (ib & Hacc & _ & _ & _ & _ & _ & Hox & _ & _ & Hfx & _).
  exists ib. split; [exact Hacc|]. split; [exact Hox | exact Hfx].
Defined.

(** ** Flattening, dropping and sorting the bookmarks *)

(** [extract_bookmarks] as the source writes it: one step of its loop. *)
Lemma extract_bookmarks_cons reader item rest d :
  extract_bookmarks reader (item :: rest) d
  = (match item with
     | OutlineList sub => extract_bookmarks reader sub (S d)
     | OutlineDest dest =>
         [ mkBookmark d (dest_title dest)
             (get_destination_page_number reader dest) ]
     | OutlineOther => []
     end ++ extract_bookmarks reader rest d)%list.
Proof. destruct item; reflexivity. Qed.

Lemma slice_from_nonneg {A} (l : list A) (start : Z) :
  (0 <= start)%Z -> Py.slice_from l start = skipn (Z.to_nat start) l.
Proof.
  intros H. unfold Py.slice_from.
  destruct (start <? 0)%Z eqn:E; [|reflexivity].
  apply Z.ltb_lt in E. lia.
Qed.

Section SortFacts.

Context {A : Type} (key : A -> nat).

Lemma insert_hd (a b : A) (l : list A) :
  le_by key b a -> HdRel (le_by key) b l ->
  HdRel (le_by key) b (Py.insert key a l).
Proof.
  intros Hba Hl. destruct l as [|c l]; simpl.
  - constructor. exact Hba.
  - inversion Hl; subst. destruct (key a <=? key c)%nat; constructor;
      assumption.
Qed.

Lemma insert_sorted (a : A) (l : list A) :
  Sorted (le_by key) l -> Sorted (le_by key) (Py.insert key a l).
Proof.
  induction l as [|b l IH]; intros Hs; simpl.
  - repeat constructor.
  - inversion Hs as [|? ? Hs' Hhd]; subst.
    destruct (key a <=? key b)%nat eqn:E.
    + apply Nat.leb_le in E. constructor; [exact Hs|].
      constructor. exact E.
    + apply Nat.leb_gt in E. constructor; [now apply IH|].
      apply insert_hd; [unfold le_by; lia | exact Hhd].
Qed.

(** The result of [sort] is sorted. *)
Lemma sort_sorted (l : list A) : Sorted (le_by key) (Py.sort key l).
Proof.
  induction l as [|a l IH]; simpl; [constructor | now apply insert_sorted].
Qed.

(** [sort] leaves a sorted list as it is. *)
Lemma sort_id (l : list A) : Sorted (le_by key) l -> Py.sort key l = l.
Proof.
  induction l as [|a l IH]; intros Hs; simpl; [reflexivity|].
  inversion Hs as [|? ? Hs' Hhd]; subst. rewrite (IH Hs').
  destruct l as [|b l]; simpl; [reflexivity|].
  inversion Hhd as [|? ? Hab]; subst.
  apply Nat.leb_le in Hab. now rewrite Hab.
Qed.

(** [sort] only reorders. *)
Lemma insert_perm (a : A) (l : list A) :
  Permutation (Py.insert key a l) (a :: l).
Proof.
  induction l as [|b l IH]; simpl; [reflexivity|].
  destruct (key a <=? key b)%nat; [reflexivity|].
  rewrite IH. apply perm_swap.
Qed.

Lemma sort_perm (l : list A) : Permutation (Py.sort key l) l.
Proof.
  induction l as [|a l IH]; simpl; [reflexivity|].
  rewrite insert_perm. now constructor.
Qed.

Lemma skipn_sorted (n : nat) (l : list A) :
  Sorted (le_by key) l -> Sorted (le_by key) (skipn n l).
Proof.
  revert l. induction n as [|n IH]; intros l Hs; [exact Hs|].
  destruct l as [|a l]; [constructor|]. simpl. apply IH.
  now inversion Hs.
Qed.

End SortFacts.

Lemma nth_error_skipn {A} (n i : nat) (l : list A) :
  nth_error (skipn n l) i = nth_error l (n + i).
Proof.
  revert l. induction n as [|n IH]; intros l; [reflexivity|].
  destruct l as [|a l]; simpl; [now destruct i | apply IH].
Qed.

(** The list the rows are rendered from is sorted, whatever the outline. *)
Lemma prepare_bookmarks_sorted reader skip :
  sorted_by_page (prepare_bookmarks reader skip).
Proof. apply (sort_sorted page). Qed.

(** C5.  The bookmarks held for rendering are always sorted by ascending
    page.  When the flattened outline is already sorted and the number of
    bookmarks to skip is a count, they are the flattened list without its
    first [skip_bookmarks] entries, each remaining entry with its depth,
    title and page untouched. *)
Theorem bookmarks_prepared reader :
  (forall skip, sorted_by_page (prepare_bookmarks reader skip)) /\
  (forall skip,
     (0 <= skip)%Z -> sorted_by_page (flattened reader) ->
     let kept := prepare_bookmarks reader skip in
     kept = skipn (Z.to_nat skip) (flattened reader) /\
     (firstn (Z.to_nat skip) (flattened reader) ++ kept)%list
     = flattened reader /\
     List.length kept
     = (List.length (flattened reader) - Z.to_nat skip)%nat /\
     forall i,
       nth_error kept i = nth_error (flattened reader) (Z.to_nat skip + i)).
Proof.
  split; [apply prepare_bookmarks_sorted|].
  intros skip Hskip Hsorted kept.
  assert (E : kept = skipn (Z.to_nat skip) (flattened reader)).
  { unfold kept, prepare_bookmarks. fold (flattened reader).
    rewrite slice_from_nonneg by exact Hskip.
    apply (sort_id page). now apply skipn_sorted. }
  rewrite E. split; [reflexivity|].
  split; [apply firstn_skipn|].
  split; [apply length_skipn|].
  intros i. apply nth_error_skipn.
Qed.

Lemma bookmarks_prepared_witness :
  (0 <= DEFAULT_SKIP_BOOKMARKS)%Z /\
  sorted_by_page (flattened sample_reader) /\
  prepare_bookmarks sample_reader DEFAULT_SKIP_BOOKMARKS
  = [mkBookmark 0 "Chapter 1" 7] /\
  List.length (flattened sample_reader) = 5%nat.
Proof.
  assert (Hskip : (0 <= DEFAULT_SKIP_BOOKMARKS)%Z)
    by (unfold DEFAULT_SKIP_BOOKMARKS; lia).
  assert (Hs : sorted_by_page (flattened sample_reader)).
  { repeat constructor. }
  destruct (bookmarks_prepared sample_reader) as (_ & H).
  destruct (H DEFAULT_SKIP_BOOKMARKS Hskip Hs) as (E & _).
  split; [exact Hskip|]. split; [exact Hs|].
  split; [rewrite E; reflexivity | reflexivity].
Defined.

(** ** The whole table: budget of iterations *)

Section Budget.

Context {T : FPDF.Typeset}.

(** A larger budget does not change what a row, the loop over the rows or
    [create_toc] return. *)
Lemma render_toc_item_mono fuel fuel' tp toc item toc' :
  (fuel <= fuel')%nat ->
  render_toc_item fuel tp toc item = Some toc' ->
  render_toc_item fuel' tp toc item = Some toc'.
Proof.
  intros Hle. rewrite !render_toc_item_eq.
  destruct (accumulate fuel (row_space tp toc item)) as [ib|] eqn:E;
    [|discriminate].
  now rewrite (accumulate_mono fuel fuel' _ ib Hle E).
Qed.

Lemma render_items_mono fuel fuel' tp bms :
  (fuel <= fuel')%nat ->
  forall toc toc',
    render_items fuel tp toc bms = Some toc' ->
    render_items fuel' tp toc bms = Some toc'.
Proof.
  intros Hle. induction bms as [|b bms IH]; intros toc toc'; cbn [render_items].
  - trivial.
  - destruct (render_toc_item fuel tp toc b) as [toc1|] eqn:E;
      [|discriminate].
    rewrite (render_toc_item_mono fuel fuel' tp toc b toc1 Hle E).
    apply IH.
Qed.

(** [create_toc] is the loop over the rows run on the heading page. *)
Lemma create_toc_eq fuel bms tp :
  create_toc fuel bms tp
  = match render_items fuel tp heading_page bms with
    | None => None
    | Some toc => Some (toc, FPDF.page_no toc)
    end.
Proof. reflexivity. Qed.

Lemma create_toc_mono fuel fuel' bms tp res :
  (fuel <= fuel')%nat ->
  create_toc fuel bms tp = Some res -> create_toc fuel' bms tp = Some res.
Proof.
  intros Hle. rewrite !create_toc_eq.
  destruct (render_items fuel tp heading_page bms) as [toc|] eqn:E;
    [|discriminate].
  now rewrite (render_items_mono fuel fuel' tp bms Hle _ _ E).
Qed.

Lemma CreateTOC_mono fuel fuel' reader skip run :
  (fuel <= fuel')%nat ->
  CreateTOC fuel reader skip = Some run ->
  CreateTOC fuel' reader skip = Some run.
Proof.
  intros Hle. unfold CreateTOC.
  destruct (create_toc fuel (prepare_bookmarks reader skip) 1)
    as [[doc1 n1]|] eqn:E1; [|discriminate].
  rewrite (create_toc_mono fuel fuel' _ _ _ Hle E1).
  destruct (negb (n1 =? 1)%nat); [|trivial].
  destruct (create_toc fuel (prepare_bookmarks reader skip) n1)
    as [[doc2 n2]|] eqn:E2; [|discriminate].
  now rewrite (create_toc_mono fuel fuel' _ _ _ Hle E2).
Qed.

(** Two budgets that both suffice give the same run. *)
Lemma CreateTOC_functional fuel1 fuel2 reader skip run1 run2 :
  CreateTOC fuel1 reader skip = Some run1 ->
  CreateTOC fuel2 reader skip = Some run2 ->
  run1 = run2.
Proof.
  intros H1 H2.
  apply (CreateTOC_mono fuel1 (Nat.max fuel1 fuel2)) in H1; [|lia].
  apply (CreateTOC_mono fuel2 (Nat.max fuel1 fuel2)) in H2; [|lia].
  congruence.
Qed.

Lemma create_toc_functional fuel1 fuel2 bms tp res1 res2 :
  create_toc fuel1 bms tp = Some res1 ->
  create_toc fuel2 bms tp = Some res2 ->
  res1 = res2.
Proof.
  intros H1 H2.
  apply (create_toc_mono fuel1 (Nat.max fuel1 fuel2)) in H1; [|lia].
  apply (create_toc_mono fuel2 (Nat.max fuel1 fuel2)) in H2; [|lia].
  congruence.
Qed.

(** When the dot of every font has a positive width, every row returns,
    and so do the loop over the rows, [create_toc] and the constructor. *)
Hypothesis dot_positive : forall f, (0 < FPDF.char_width f ".")%Z.

(** The rows are set in 12 pt, in the unit of the document. *)
Lemma row_font_size tp toc item :
  size_pt (FPDF.font (sp_toc (row_space tp toc item))) = 12 /\
  FPDF.k (sp_toc (row_space tp toc item)) = FPDF.k toc.
Proof.
  unfold row_space.
  destruct (measure_space_geometry (title_end toc item) (indent_of item)
              (item_page_number tp item)) as (_ & _ & _ & -> & ->).
  destruct (title_end_font toc item) as (-> & ->).
  unfold row_entry. rewrite enter_row_style.
  destruct (get_text_style_cases (depth item)) as [-> | ->];
    split; reflexivity.
Qed.

Lemma render_page_number_k toc cx label link :
  FPDF.k (render_page_number toc cx label link) = FPDF.k toc.
Proof. reflexivity. Qed.

Lemma with_font_k pdf f : FPDF.k (FPDF.with_font pdf f) = FPDF.k pdf.
Proof. reflexivity. Qed.

Lemma row_result_k tp toc item ib :
  FPDF.k (row_result tp toc item ib) = FPDF.k toc.
Proof.
  unfold row_result. rewrite leave_row_style, with_font_k.
  rewrite render_page_number_k. unfold fill_end.
  destruct (render_fill_geometry (row_space tp toc item) ib
              ("#" ++ link_name item)) as (_ & _ & _ & _ & ->).
  apply row_font_size.
Qed.

Lemma render_toc_item_k fuel tp toc item toc' :
  render_toc_item fuel tp toc item = Some toc' -> FPDF.k toc' = FPDF.k toc.
Proof.
  intros H. apply render_toc_item_inv in H. destruct H as (ib & _ & ->).
  apply row_result_k.
Qed.

Lemma dot_width_positive tp toc item :
  0 < FPDF.k toc ->
  0 < FPDF.get_string_width (sp_toc (row_space tp toc item)) ".".
Proof.
  intros Hk. unfold FPDF.get_string_width, FPDF.font_size.
  destruct (row_font_size tp toc item) as (-> & ->).
  cbn [FPDF.text_units].
  assert (Hc : 0 < inject_Z
                     (FPDF.char_width
                        (FPDF.font (sp_toc (row_space tp toc item))) "."
                      + 0)).
  { change 0 with (inject_Z 0) at 1. rewrite <- Zlt_Qlt.
    pose proof (dot_positive (FPDF.font (sp_toc (row_space tp toc item)))).
    lia. }
  unfold Qdiv. apply Qmult_lt_0_compat; [|reflexivity].
  apply Qmult_lt_0_compat; [exact Hc|].
  apply Qmult_lt_0_compat; [reflexivity|].
  now apply Qinv_lt_0_compat.
Qed.

Lemma render_items_returns tp bms :
  forall toc, 0 < FPDF.k toc ->
    exists fuel toc', render_items fuel tp toc bms = Some toc'.
Proof.
  induction bms as [|b bms IH]; intros toc Hk.
  - exists 0%nat, toc. reflexivity.
  - destruct (render_toc_item_returns tp toc b
                (dot_width_positive tp toc b Hk)) as (f1 & toc1 & H1).
    assert (Hk1 : 0 < FPDF.k toc1)
      by (now rewrite (render_toc_item_k _ _ _ _ _ H1)).
    destruct (IH toc1 Hk1) as (f2 & toc2 & H2).
    exists (Nat.max f1 f2), toc2. cbn [render_items].
    rewrite (render_toc_item_mono f1 (Nat.max f1 f2) tp toc b toc1);
      [|lia|exact H1].
    apply (render_items_mono f2); [lia | exact H2].
Qed.

Lemma create_toc_returns bms tp :
  exists fuel doc, create_toc fuel bms tp = Some (doc, FPDF.page_no doc).
Proof.
  assert (Hk : 0 < FPDF.k heading_page) by reflexivity.
  destruct (render_items_returns tp bms heading_page Hk) as (fuel & doc & H).
  exists fuel, doc. rewrite create_toc_eq, H. reflexivity.
Qed.

Lemma CreateTOC_returns reader skip :
  exists fuel run,
    forall fuel', (fuel <= fuel')%nat ->
      CreateTOC fuel' reader skip = Some run.
Proof.
  destruct (create_toc_returns (prepare_bookmarks reader skip) 1)
    as (f1 & doc1 & H1).
  destruct (create_toc_returns (prepare_bookmarks reader skip)
              (FPDF.page_no doc1)) as (f2 & doc2 & H2).
  apply (create_toc_mono f1 (Nat.max f1 f2)) in H1; [|lia].
  apply (create_toc_mono f2 (Nat.max f1 f2)) in H2; [|lia].
  assert (exists run, CreateTOC (Nat.max f1 f2) reader skip = Some run)
    as (run & Hrun).
  { unfold CreateTOC. rewrite H1.
    destruct (negb (FPDF.page_no doc1 =? 1)%nat).
    - rewrite H2. eexists. reflexivity.
    - eexists. reflexivity. }
  exists (Nat.max f1 f2), run. intros fuel' Hle.
  now apply (CreateTOC_mono (Nat.max f1 f2)).
Qed.

End Budget.

(** ** The whole table: content *)

Lemma link_names_app (a b : list Op) :
  link_names (a ++ b) = (link_names a ++ link_names b)%list.
Proof.
  induction a as [|op a IH]; [reflexivity|].
  destruct op; cbn [app link_names]; rewrite IH; reflexivity.
Qed.

Lemma span_links_app (a b : list Op) :
  span_links (a ++ b) = (span_links a ++ span_links b)%list.
Proof.
  induction a as [|op a IH]; [reflexivity|].
  destruct op; cbn [app span_links]; rewrite IH; reflexivity.
Qed.

Lemma label_texts_app (a b : list Op) :
  label_texts (a ++ b) = (label_texts a ++ label_texts b)%list.
Proof. unfold label_texts. now rewrite filter_app, map_app. Qed.

Section Table.

Context {T : FPDF.Typeset}.

(** What a row adds is a row. *)
Lemma row_ops_is_row tp toc item ib :
  is_row tp item
    ([OpAddLink (link_name item); title_op toc item]
     ++ (if fill_drawn (row_space tp toc item) ib
         then [fill_op tp toc item ib] else [])
     ++ [label_op tp toc item ib])%list.
Proof.
  unfold is_row, title_op, fill_op, label_op, multi_cell_op. cbv zeta.
  destruct (fill_drawn (row_space tp toc item) ib);
    cbn [app link_names label_texts span_links filter is_span map op_text
         List.length];
    (split; [reflexivity|]); (split; [reflexivity|]);
    (split; [auto|]); repeat constructor.
Qed.

Lemma render_toc_item_row fuel tp toc item toc' :
  render_toc_item fuel tp toc item = Some toc' ->
  exists row,
    FPDF.content toc' = (FPDF.content toc ++ row)%list /\
    is_row tp item row.
Proof.
  intros H. apply render_toc_item_inv in H. destruct H as (ib & _ & ->).
  eexists. split; [apply row_result_content | apply row_ops_is_row].
Qed.

Lemma render_items_rows fuel tp bms :
  forall toc toc',
    render_items fuel tp toc bms = Some toc' ->
    exists rows,
      FPDF.content toc' = (FPDF.content toc ++ List.concat rows)%list /\
      Forall2 (is_row tp) bms rows.
Proof.
  induction bms as [|b bms IH]; intros toc toc'; cbn [render_items].
  - intros H. injection H as <-. exists []. cbn [List.concat].
    rewrite app_nil_r. split; [reflexivity | constructor].
  - destruct (render_toc_item fuel tp toc b) as [toc1|] eqn:E;
      [|discriminate].
    intros H. apply render_toc_item_row in E.
    destruct E as (row & Hrow & Hisrow).
    apply IH in H. destruct H as (rows & Hrows & Hall).
    exists (row :: rows). cbn [List.concat]. split.
    + rewrite Hrows, Hrow, <- app_assoc. reflexivity.
    + constructor; assumption.
Qed.

(** What [create_toc] returns is a table of its bookmarks, together with
    the page count of that very document. *)
Lemma create_toc_table fuel bms tp doc n :
  create_toc fuel bms tp = Some (doc, n) ->
  n = FPDF.page_no doc /\ is_table tp bms doc.
Proof.
  rewrite create_toc_eq.
  destruct (render_items fuel tp heading_page bms) as [toc|] eqn:E;
    [|discriminate].
  intros H. injection H as <- <-. split; [reflexivity|].
  apply render_items_rows in E. exact E.
Qed.

End Table.

(** The heading holds no span and registers no link. *)
Lemma heading_plain :
  link_names (FPDF.content heading_page) = [] /\
  label_texts (FPDF.content heading_page) = [] /\
  span_links (FPDF.content heading_page) = [].
Proof. repeat split. Qed.

Lemma rows_link_names tp bms rows :
  Forall2 (is_row tp) bms rows ->
  link_names (List.concat rows) = map link_name bms.
Proof.
  induction 1 as [|b row bms rows (Hn & _) _ IH]; [reflexivity|].
  cbn [List.concat map]. now rewrite link_names_app, Hn, IH.
Qed.

Lemma rows_label_texts tp bms rows :
  Forall2 (is_row tp) bms rows ->
  label_texts (List.concat rows) = map (item_page_number tp) bms.
Proof.
  induction 1 as [|b row bms rows (_ & Hl & _) _ IH]; [reflexivity|].
  cbn [List.concat map]. now rewrite label_texts_app, Hl, IH.
Qed.

(** The registered links and the printed page numbers of a table. *)
Lemma table_link_names tp bms doc :
  is_table tp bms doc ->
  link_names (FPDF.content doc) = map link_name bms.
Proof.
  intros (rows & Hc & Hrows). rewrite Hc, link_names_app.
  destruct heading_plain as (-> & _). now apply (rows_link_names tp).
Qed.

Lemma table_label_texts tp bms doc :
  is_table tp bms doc ->
  label_texts (FPDF.content doc) = map (item_page_number tp) bms.
Proof.
  intros (rows & Hc & Hrows). rewrite Hc, label_texts_app.
  destruct heading_plain as (_ & -> & _). now apply rows_label_texts.
Qed.

Lemma span_links_concat (rows : list (list Op)) :
  span_links (List.concat rows) = List.concat (map span_links rows).
Proof.
  induction rows as [|row rows IH]; [reflexivity|].
  cbn [List.concat map]. now rewrite span_links_app, IH.
Qed.

(** The spans of every row refer to the link of its bookmark. *)
Lemma rows_span_links tp bms rows :
  Forall2 (is_row tp) bms rows ->
  Forall2
    (fun b links =>
       (List.length links = 2%nat \/ List.length links = 3%nat) /\
       Forall (eq ("#" ++ link_name b)) links)
    bms (map span_links rows).
Proof.
  induction 1 as [|b row bms rows (_ & _ & Hlen & Hall) _ IH];
    cbn [map]; constructor; [split; assumption | exact IH].
Qed.

(** ** Merging and the two passes *)

Lemma add_pages_fold (ps : list PageRef) (wr : PdfWriter.t) :
  fold_left (fun wr p => PdfWriter.add_page p wr) ps wr
  = PdfWriter.mk (PdfWriter.pages wr ++ ps)
      (PdfWriter.named_destinations wr).
Proof.
  revert wr. induction ps as [|p ps IH]; intros wr; cbn [fold_left].
  - rewrite app_nil_r. now destruct wr.
  - rewrite IH. unfold PdfWriter.add_page. cbn [PdfWriter.pages
      PdfWriter.named_destinations]. now rewrite <- app_assoc.
Qed.

Lemma add_destinations_fold (tp : nat) (bms : list Bookmark)
    (wr : PdfWriter.t) :
  fold_left
    (fun wr b =>
       PdfWriter.add_named_destination ("dest" ++ Py.str (page b))
         (page b + tp)%nat wr) bms wr
  = PdfWriter.mk (PdfWriter.pages wr)
      (PdfWriter.named_destinations wr ++ map (destination_of tp) bms).
Proof.
  revert wr. induction bms as [|b bms IH]; intros wr; cbn [fold_left map].
  - rewrite app_nil_r. now destruct wr.
  - rewrite IH. unfold PdfWriter.add_named_destination, destination_of.
    cbn [PdfWriter.pages PdfWriter.named_destinations].
    now rewrite <- app_assoc.
Qed.

(** The merged document: the pages of the table, then the pages of the
    source; one destination per bookmark, in order. *)
Lemma merge_pdfs_eq reader bms tp toc_buffer :
  merge_pdfs reader bms tp toc_buffer
  = PdfWriter.mk (toc_reader_pages toc_buffer ++ pages reader)
      (map (destination_of tp) bms).
Proof.
  unfold merge_pdfs. cbv zeta. rewrite add_destinations_fold.
  unfold PdfWriter.append. rewrite add_pages_fold. reflexivity.
Qed.

Lemma toc_reader_pages_length doc :
  List.length (toc_reader_pages doc) = FPDF.page_no doc.
Proof. unfold toc_reader_pages. now rewrite length_map, length_seq. Qed.

(** A destination past the pages of the table points into the source. *)
Lemma resolve_shifted reader bms tp doc n :
  FPDF.page_no doc = tp ->
  PdfWriter.resolve (merge_pdfs reader bms tp doc) (n + tp)
  = nth_error (pages reader) n.
Proof.
  intros H. rewrite merge_pdfs_eq. unfold PdfWriter.resolve.
  cbn [PdfWriter.pages]. rewrite nth_error_app2.
  - rewrite toc_reader_pages_length, H. f_equal. lia.
  - rewrite toc_reader_pages_length. lia.
Qed.

Section Passes.

Context {T : FPDF.Typeset}.

(** The two ways a construction ends: after one render that reported one
    page, or after a second render with the count the first reported. *)
Lemma CreateTOC_inv fuel reader skip run :
  CreateTOC fuel reader skip = Some run ->
  let bms := prepare_bookmarks reader skip in
  exists doc1 n1,
    create_toc fuel bms 1 = Some (doc1, n1) /\
    ((n1 = 1%nat /\
      run = mkRun bms 1 [1%nat] doc1 (merge_pdfs reader bms 1 doc1)) \/
     (n1 <> 1%nat /\
      exists doc2 n2,
        create_toc fuel bms n1 = Some (doc2, n2) /\
        run = mkRun bms n1 [1%nat; n1] doc2
                (merge_pdfs reader bms n1 doc2))).
Proof.
  intros H bms. unfold CreateTOC in H. fold bms in H.
  destruct (create_toc fuel bms 1) as [[doc1 n1]|]; [|discriminate].
  exists doc1, n1. split; [reflexivity|].
  destruct (n1 =? 1)%nat eqn:E; cbn [negb] in H.
  - apply Nat.eqb_eq in E. left. split; [exact E|].
    injection H as <-. now subst n1.
  - apply Nat.eqb_neq in E. right. split; [exact E|].
    destruct (create_toc fuel bms n1) as [[doc2 n2]|]; [|discriminate].
    exists doc2, n2. split; [reflexivity|]. now injection H as <-.
Qed.

(** What every construction leaves: the prepared bookmarks, a table
    rendered for the final [toc_pages], and the merge of that table. *)
Lemma CreateTOC_run fuel reader skip run :
  CreateTOC fuel reader skip = Some run ->
  bookmarks run = prepare_bookmarks reader skip /\
  create_toc fuel (bookmarks run) (toc_pages run)
  = Some (toc_pdf run, FPDF.page_no (toc_pdf run)) /\
  is_table (toc_pages run) (bookmarks run) (toc_pdf run) /\
  merged run
  = merge_pdfs reader (bookmarks run) (toc_pages run) (toc_pdf run).
Proof.
  intros H. apply CreateTOC_inv in H.
  destruct H as (doc1 & n1 & H1 & [(E & ->) | (E & doc2 & n2 & H2 & ->)]);
    cbn [bookmarks toc_pages toc_pdf merged].
  - subst n1. destruct (create_toc_table _ _ _ _ _ H1) as (En & Ht).
    rewrite <- En. repeat split; assumption.
  - destruct (create_toc_table _ _ _ _ _ H2) as (En & Ht).
    rewrite <- En. repeat split; assumption.
Qed.

End Passes.

(** ** The construction as a whole *)

Section Construction.

Context {T : FPDF.Typeset}.

(** C3.  A construction renders the table with [toc_pages = 1]; when the
    page count it measures is 1 that render is final, otherwise the table
    is rendered once more with [toc_pages] set to the measured count.
    [create_toc] thus runs once or twice, and every page number printed
    in the final table is [str(page + toc_pages + 1)] for the final
    [toc_pages].  With a dot of positive width the construction
    completes. *)
Theorem two_pass reader skip :
  (forall fuel run,
     CreateTOC fuel reader skip = Some run ->
     exists doc1 n1,
       create_toc fuel (bookmarks run) 1 = Some (doc1, n1) /\
       (n1 = 1%nat ->
          renders run = [1%nat] /\ toc_pages run = 1%nat /\
          toc_pdf run = doc1) /\
       (n1 <> 1%nat ->
          renders run = [1%nat; n1] /\ toc_pages run = n1 /\
          create_toc fuel (bookmarks run) n1
          = Some (toc_pdf run, FPDF.page_no (toc_pdf run))) /\
       (1 <= List.length (renders run) <= 2)%nat /\
       label_texts (FPDF.content (toc_pdf run))
       = map (fun b => Py.str (page b + toc_pages run + 1)) (bookmarks run))
  /\
  ((forall f, (0 < FPDF.char_width f ".")%Z) ->
   exists fuel run,
     forall fuel', (fuel <= fuel')%nat ->
       CreateTOC fuel' reader skip = Some run).
Proof.
  split; [|intros Hdot; now apply CreateTOC_returns].
  intros fuel run H.
  destruct (CreateTOC_run fuel reader skip run H) as (Eb & Hfinal & Ht & _).
  apply table_label_texts in Ht.
  apply CreateTOC_inv in H. rewrite <- Eb in H.
  destruct H as (doc1 & n1 & H1 & [(E & Hrun) | (E & doc2 & n2 & H2 & Hrun)]);
    exists doc1, n1; (split; [exact H1|]).
  - split; [|split; [intros Hne; contradiction|]].
    + intros _. now rewrite Hrun.
    + split; [rewrite Hrun; cbn; lia | exact Ht].
  - split; [intros Heq; contradiction|]. split.
    + intros _. rewrite Hrun in Hfinal |- *.
      cbn [renders toc_pages toc_pdf bookmarks] in *.
      repeat split. exact Hfinal.
    + split; [rewrite Hrun; cbn; lia | exact Ht].
Qed.

(** C9.  The name under which a row registers its link, the name every
    span of the row refers to and the name of the destination registered
    at merge time are all ["dest"] followed by the page of the bookmark:
    bookmarks on the same page share their name, and the merge still
    registers one destination per bookmark. *)
Theorem destination_names fuel reader skip run :
  CreateTOC fuel reader skip = Some run ->
  link_names (FPDF.content (toc_pdf run))
  = map (fun b => "dest" ++ Py.str (page b)) (bookmarks run) /\
  map fst (PdfWriter.named_destinations (merged run))
  = map (fun b => "dest" ++ Py.str (page b)) (bookmarks run) /\
  List.length (PdfWriter.named_destinations (merged run))
  = List.length (bookmarks run) /\
  (exists rows,
     span_links (FPDF.content (toc_pdf run)) = List.concat rows /\
     Forall2
       (fun b links =>
          (List.length links = 2%nat \/ List.length links = 3%nat) /\
          Forall (eq ("#" ++ "dest" ++ Py.str (page b))) links)
       (bookmarks run) rows) /\
  (forall a b, page a = page b -> link_name a = link_name b).
Proof.
  intros H.
  destruct (CreateTOC_run fuel reader skip run H)
    as (Eb & Hfinal & Ht & Hm).
  split; [exact (table_link_names _ _ _ Ht)|].
  rewrite Hm, merge_pdfs_eq. cbn [PdfWriter.named_destinations].
  split; [rewrite map_map; reflexivity|].
  split; [apply length_map|].
  split.
  - destruct Ht as (rows & Hc & Hrows).
    exists (map span_links rows). split.
    + rewrite Hc, span_links_app.
      destruct heading_plain as (_ & _ & ->). cbn [app].
      apply span_links_concat.
    + exact (rows_span_links _ _ _ Hrows).
  - intros a b E. unfold link_name. now rewrite E.
Qed.

End Construction.

(** ** Runs on sample sources *)

Lemma one_line_dot_positive :
  forall f, (0 < FPDF.char_width (Typeset := one_line) f ".")%Z.
Proof. intros f. reflexivity. Qed.

(** Forty bookmarks need a second page, hence a second render. *)
Lemma two_pass_witness :
  (forall f, (0 < FPDF.char_width (Typeset := one_line) f ".")%Z) /\
  exists run,
    CreateTOC (T := one_line) 200 long_reader 0 = Some run /\
    renders run = [1%nat; 2%nat] /\
    toc_pages run = 2%nat /\
    label_texts (FPDF.content (toc_pdf run))
    = map (fun b => Py.str (page b + toc_pages run + 1)) (bookmarks run).
Proof.
  split; [exact one_line_dot_positive|].
  assert (E : { run | CreateTOC (T := one_line) 200 long_reader 0 = Some run
                      /\ renders run = [1%nat; 2%nat]
                      /\ toc_pages run = 2%nat }).
  { eexists. split; [vm_compute; reflexivity | split; reflexivity]. }
  destruct E as (run & E & Hr & Ht). exists run.
  destruct (two_pass (T := one_line) long_reader 0) as (H & _).
  destruct (H 200%nat run E) as (doc1 & n1 & _ & _ & _ & _ & Hlab).
  split; [exact E|]. split; [exact Hr|]. split; [exact Ht | exact Hlab].
Defined.

(** Two bookmarks on page 2: one name, two destinations. *)
Lemma destination_names_witness :
  exists run,
    CreateTOC (T := one_line) 200 twin_reader 0 = Some run /\
    link_names (FPDF.content (toc_pdf run)) = ["dest2"; "dest2"] /\
    PdfWriter.named_destinations (merged run)
    = [("dest2", 3%nat); ("dest2", 3%nat)] /\
    List.length (PdfWriter.named_destinations (merged run)) = 2%nat.
Proof.
  eexists.
  match goal with
  | |- ?P /\ _ => assert (E : P) by (vm_compute; reflexivity)
  end.
  split; [exact E|].
  destruct (destination_names (T := one_line) 200 twin_reader 0 _ E)
    as (Hn & _ & Hlen & _).
  split; [exact Hn|]. split; [reflexivity | exact Hlen].
Defined.

(** C4.  The target of a destination is the page of its bookmark plus
    [toc_pages], and [toc_pages] is the count the first render measured:
    the second render is not measured again.  Here the first render fills
    two pages to the last line; in the second, the page number of the row
    of page 7 is one digit longer and no longer fits after the title, the
    row takes two lines and the table three pages, while [toc_pages]
    stays 2.  The destination of the bookmark of page 7 is registered
    with target 9, which in the merged output is page 6 of the source:
    page 7 of the source is one page further. *)
Remark second_render_not_measured :
  exists run,
    CreateTOC (T := one_line) 200 edge_reader 0 = Some run /\
    renders run = [1%nat; 2%nat] /\
    toc_pages run = 2%nat /\
    FPDF.page_no (toc_pdf run) = 3%nat /\
    nth_error (bookmarks run) 7 = Some (mkBookmark 0 (digits 78) 7) /\
    nth_error (PdfWriter.named_destinations (merged run)) 7
    = Some ("dest7", 9%nat) /\
    PdfWriter.resolve (merged run) 9 = Some (SourcePage 6) /\
    nth_error (PdfWriter.pages (merged run)) 10 = Some (SourcePage 7) /\
    nth_error (pages edge_reader) 7 = Some (SourcePage 7).
Proof.
  eexists. split; [vm_compute; reflexivity|].
  repeat split.
Qed.

(** * Further properties *)

(** ** Page numbers and names in decimal *)

(** [str] gives different strings for different numbers. *)
Lemma str_inj (n m : nat) : Py.str n = Py.str m -> n = m.
Proof.
  unfold Py.str. intros H. apply DecimalNat.Unsigned.to_uint_inj.
  assert (E : Some (Nat.to_uint n) = Some (Nat.to_uint m)).
  { rewrite <- !NilEmpty.usu. now rewrite H. }
  now injection E.
Qed.

Lemma append_inj_l (p a b : string) : (p ++ a = p ++ b)%string -> a = b.
Proof.
  induction p as [|c p IH]; cbn [append]; intros H; [exact H|].
  injection H as H. now apply IH.
Qed.

(** The style of a row: the bold style of ["depth_0"] for a top-level
    bookmark, the ["default"] style for every other depth, for which the
    table has no key. *)
Theorem text_style_by_depth :
  get_text_style 0 = depth_0_style /\
  forall d, d <> 0%nat -> get_text_style d = default_style.
Proof.
  split; [reflexivity|]. intros d Hd. unfold get_text_style.
  assert (E : dict_get TOC_TEXT_STYLES ("depth_" ++ Py.str d)
              = if String.eqb "0" (Py.str d)
                then Some depth_0_style else None) by reflexivity.
  rewrite E. destruct (String.eqb "0" (Py.str d)) eqn:E0; [|reflexivity].
  apply String.eqb_eq in E0. exfalso. apply Hd.
  apply str_inj. rewrite <- E0. reflexivity.
Qed.

Lemma text_style_by_depth_witness :
  3%nat <> 0%nat /\ get_text_style 3 = default_style.
Proof.
  assert (H : 3%nat <> 0%nat) by discriminate.
  split; [exact H|]. exact (proj2 text_style_by_depth 3%nat H).
Defined.

(** The name of a link tells the page: two bookmarks have the same name
    exactly when they are on the same page. *)
Lemma link_name_inj (a b : Bookmark) :
  link_name a = link_name b <-> page a = page b.
Proof.
  unfold link_name. split; intros H; [|now rewrite H].
  apply str_inj. now apply (append_inj_l "dest").
Qed.

(** ** Flattening the outline *)

(** Induction on an outline item, with the items of a nested list. *)
Lemma outline_item_ind (P : OutlineItem -> Prop) :
  (forall d, P (OutlineDest d)) ->
  (forall sub, Forall P sub -> P (OutlineList sub)) ->
  P OutlineOther ->
  forall item, P item.
Proof.
  intros Hd Hl Ho. fix IH 1. intros [d | sub |].
  - apply Hd.
  - apply Hl. induction sub as [|i sub IHsub]; constructor.
    + apply IH.
    + exact IHsub.
  - exact Ho.
Qed.

Lemma extract_item_deepen reader (k : nat) (item : OutlineItem) :
  forall d, extract_item reader item (d + k)
            = map (deepen k) (extract_item reader item d).
Proof.
  induction item as [dest | sub IH |] using outline_item_ind; intros d.
  - reflexivity.
  - cbn [extract_item]. induction IH as [|i sub Hi _ IHsub];
      cbn [flat_map map]; [reflexivity|].
    rewrite map_app, <- IHsub. f_equal. exact (Hi (S d)).
  - reflexivity.
Qed.

(** The depth of a bookmark is relative to the depth the flattening
    starts from: starting [k] levels deeper makes every bookmark [k]
    levels deeper and changes nothing else. *)
Theorem extract_bookmarks_deepen reader outlines (d k : nat) :
  extract_bookmarks reader outlines (d + k)
  = map (deepen k) (extract_bookmarks reader outlines d).
Proof.
  unfold extract_bookmarks.
  induction outlines as [|item rest IH]; cbn [flat_map map]; [reflexivity|].
  now rewrite map_app, <- IH, extract_item_deepen.
Qed.

Lemma extract_item_length reader (item : OutlineItem) :
  forall d, List.length (extract_item reader item d) = count_item item.
Proof.
  induction item as [dest | sub IH |] using outline_item_ind; intros d.
  - reflexivity.
  - cbn [extract_item count_item]. induction IH as [|i sub Hi _ IHsub];
      cbn [flat_map map list_sum]; [reflexivity|].
    now rewrite length_app, IHsub, (Hi (S d)).
  - reflexivity.
Qed.

(** Flattening yields one bookmark per destination of the outline, at any
    nesting, none for an item that is neither a destination nor a list;
    a bookmark is never above the depth the flattening starts from. *)
Theorem extract_bookmarks_complete reader outlines (d : nat) :
  List.length (extract_bookmarks reader outlines d)
  = count_destinations outlines /\
  Forall (fun b => (d <= depth b)%nat) (extract_bookmarks reader outlines d).
Proof.
  split.
  - unfold extract_bookmarks, count_destinations.
    induction outlines as [|item rest IH]; cbn [flat_map map list_sum];
      [reflexivity|].
    now rewrite length_app, IH, extract_item_length.
  - replace d with (0 + d)%nat by reflexivity.
    rewrite extract_bookmarks_deepen. apply Forall_map.
    apply Forall_forall. intros b _. cbn [deepen depth]. lia.
Qed.

(** An outline nested three levels deep: the depths follow the nesting
    and the item of another kind leaves no bookmark. *)
Example nested_outline_flattened :
  extract_bookmarks (mkPdfReader nested_outline [] dest_ref)
    nested_outline 0
  = [ mkBookmark 0 "Part" 0; mkBookmark 1 "Chapter" 1;
      mkBookmark 2 "Section" 2; mkBookmark 0 "Index" 9 ].
Proof. reflexivity. Qed.

(** ** Dropping and sorting *)

Section Stable.

Context {A : Type} (key : A -> nat).

Lemma insert_filter (p : nat) (a : A) (l : list A) :
  filter (fun b => (key b =? p)%nat) (Py.insert key a l)
  = filter (fun b => (key b =? p)%nat) (a :: l).
Proof.
  induction l as [|b l IH]; [reflexivity|]. cbn [Py.insert].
  destruct (key a <=? key b)%nat eqn:E; [reflexivity|].
  apply Nat.leb_gt in E. cbn [filter] in *. rewrite IH.
  destruct (key a =? p)%nat eqn:Ea; [|reflexivity].
  apply Nat.eqb_eq in Ea.
  destruct (key b =? p)%nat eqn:Eb; [|reflexivity].
  apply Nat.eqb_eq in Eb. lia.
Qed.

(** [sort] keeps the order of the elements that have the same key. *)
Lemma sort_stable (p : nat) (l : list A) :
  filter (fun b => (key b =? p)%nat) (Py.sort key l)
  = filter (fun b => (key b =? p)%nat) l.
Proof.
  induction l as [|a l IH]; [reflexivity|]. cbn [Py.sort].
  rewrite insert_filter. cbn [filter]. now rewrite IH.
Qed.

End Stable.

(** The bookmarks held for rendering are those left by the slice, none
    lost and none added, and the bookmarks of one page come in the order
    the outline has them. *)
Theorem prepare_bookmarks_stable reader skip :
  let kept := Py.slice_from (flattened reader) skip in
  Permutation (prepare_bookmarks reader skip) kept /\
  forall p, on_page p (prepare_bookmarks reader skip) = on_page p kept.
Proof.
  split.
  - apply (sort_perm page).
  - intros p. apply (sort_stable page).
Qed.

(** The slice [[skip_bookmarks:]] at its edges: a count of at least the
    number of entries leaves none; a negative count keeps the entries at
    the end of the outline, as many as the count says, or all of them
    when there are fewer, and drops the ones before them. *)
Theorem skip_edges reader (skip : Z) :
  let n := Z.of_nat (List.length (flattened reader)) in
  ((n <= skip)%Z -> prepare_bookmarks reader skip = []) /\
  ((skip < 0)%Z ->
     exists dropped kept,
       flattened reader = (dropped ++ kept)%list /\
       List.length kept
       = Nat.min (Z.to_nat (- skip)) (List.length (flattened reader)) /\
       prepare_bookmarks reader skip = Py.sort page kept).
Proof.
  intros n. unfold prepare_bookmarks. fold (flattened reader). split.
  - intros H. rewrite slice_from_nonneg by lia.
    rewrite skipn_all2 by lia. reflexivity.
  - intros H. unfold Py.slice_from. apply Z.ltb_lt in H. rewrite H.
    set (m := (List.length (flattened reader) - Z.to_nat (- skip))%nat).
    exists (firstn m (flattened reader)), (skipn m (flattened reader)).
    split; [symmetry; apply firstn_skipn|].
    split; [rewrite length_skipn; lia | reflexivity].
Qed.

(** Of the five entries of the sample, a count of [-2] keeps the last
    two. *)
Lemma skip_edges_witness :
  (5 <= 7)%Z /\ (-2 < 0)%Z /\
  prepare_bookmarks sample_reader 7 = [] /\
  exists dropped kept,
    flattened sample_reader = (dropped ++ kept)%list /\
    List.length kept = 2%nat /\
    prepare_bookmarks sample_reader (-2) = Py.sort page kept.
Proof.
  assert (H1 : (Z.of_nat (List.length (flattened sample_reader)) <= 7)%Z)
    by (vm_compute; discriminate).
  assert (H2 : (-2 < 0)%Z) by lia.
  destruct (skip_edges sample_reader 7) as (Hall & _).
  destruct (skip_edges sample_reader (-2)) as (_ & Hneg).
  split; [exact H1|]. split; [exact H2|].
  split; [exact (Hall H1)|].
  destruct (Hneg H2) as (dropped & kept & Hf & Hlen & Hp).
  exists dropped, kept. split; [exact Hf|]. split; [exact Hlen | exact Hp].
Defined.

(** ** The loop, beyond its termination *)

Section LoopFacts.

Context {T : FPDF.Typeset}.

Lemma get_string_width_dot_1 (toc : FPDF.t) :
  FPDF.get_string_width toc (dots 1) = FPDF.get_string_width toc ".".
Proof. reflexivity. Qed.

(** The loop never appends more dots than the gap, clearance taken off,
    holds: their number is at most that gap divided by the width of a
    dot, rounded up. *)
Theorem fill_loop_bounded (fuel : nat) (toc : FPDF.t) (cm space : Q)
    (in_between : string) :
  0 < FPDF.get_string_width toc "." ->
  fill_loop fuel toc cm space "" = Some in_between ->
  (Py.len in_between <= fill_bound toc cm space)%nat.
Proof.
  intros Hpos H. apply fill_loop_spec in H.
  destruct H as (n & _ & -> & Hlt & _). cbn [append].
  unfold Py.len. rewrite dots_length.
  destruct n as [|n]; [lia|].
  specialize (Hlt n ltac:(lia)). cbn [append] in Hlt. unfold fits in Hlt.
  rewrite get_string_width_dots in Hlt.
  unfold fill_bound.
  set (d := FPDF.get_string_width toc ".") in *.
  assert (Hq : inject_Z (Z.of_nat n) < (space - cm) / d).
  { apply Qlt_shift_div_l; [exact Hpos | lra]. }
  assert (Hc : (Z.of_nat n < Qceiling ((space - cm) / d))%Z).
  { rewrite Zlt_Qlt. eapply Qlt_le_trans; [exact Hq | apply Qle_ceiling]. }
  lia.
Qed.

Lemma fill_loop_stuck (toc : FPDF.t) (cm space : Q) :
  FPDF.get_string_width toc "." <= 0 ->
  forall fuel s,
    FPDF.get_string_width toc s + cm < space ->
    fill_loop fuel toc cm space s = None.
Proof.
  intros Hd. induction fuel as [|fuel IH]; intros s Hs;
    cbn [fill_loop]; rewrite (proj2 (lt_true _ _) Hs); [reflexivity|].
  apply IH. rewrite get_string_width_snoc. lra.
Qed.

(** With a dot that has no width the loop cannot stop once it has
    started: when the gap exceeds the clearance no number of iterations
    makes the row return. *)
Theorem zero_width_dot_hangs (tp : nat) (toc : FPDF.t) (item : Bookmark) :
  let sp := row_space tp toc item in
  FPDF.get_string_width (sp_toc sp) "." <= 0 ->
  0 < in_between_space sp ->
  clearance_margin sp < in_between_space sp ->
  forall fuel, render_toc_item fuel tp toc item = None.
Proof.
  intros sp Hd Hpos Hgap fuel. rewrite render_toc_item_eq. fold sp.
  unfold accumulate. rewrite (proj2 (lt_true _ _) Hpos).
  rewrite (fill_loop_stuck _ _ _ Hd); [reflexivity|].
  rewrite get_string_width_empty. lra.
Qed.

(** The fill is drawn exactly when one dot fits with its clearance. *)
Theorem fill_drawn_iff fuel tp toc item toc' :
  let sp := row_space tp toc item in
  render_toc_item fuel tp toc item = Some toc' ->
  0 < FPDF.get_string_width (sp_toc sp) "." ->
  0 <= clearance_margin sp ->
  (fill_texts (emitted toc toc') <> [] <->
   FPDF.get_string_width (sp_toc sp) "." + clearance_margin sp
     < in_between_space sp).
Proof.
  intros sp H Hd Hcm. apply row_emitted in H.
  destruct H as (ib & Hacc & _ & Hem). rewrite Hem, row_fill_texts.
  fold sp in Hacc |- *. clearbody sp.
  pose proof (fill_drawn_true sp ib) as Hiff.
  apply accumulate_spec in Hacc. destruct Hacc as (n & -> & Hn).
  unfold Py.len in Hiff. rewrite dots_length in Hiff.
  split.
  - intros Hne. destruct (fill_drawn sp (dots n)); [|contradiction].
    destruct (proj1 Hiff eq_refl) as (Hpos & Hlen).
    rewrite (proj2 (lt_true _ _) Hpos) in Hn. destruct Hn as (Hlt & _).
    specialize (Hlt 1%nat Hlen). unfold fits in Hlt.
    now rewrite get_string_width_dot_1 in Hlt.
  - intros Hfit.
    assert (Hpos : 0 < in_between_space sp) by lra.
    rewrite (proj2 (lt_true _ _) Hpos) in Hn. destruct Hn as (_ & Hstop).
    assert (Hlen : (1 < n)%nat).
    { destruct n as [|[|n]]; [| |lia]; exfalso; apply Hstop; unfold fits.
      - rewrite get_string_width_empty. lra.
      - rewrite get_string_width_dot_1. exact Hfit. }
    rewrite (proj2 Hiff (conj Hpos Hlen)). discriminate.
Qed.

End LoopFacts.

Lemma fill_loop_bounded_witness :
  0 < FPDF.get_string_width (T := one_line) heading_page "." /\
  fill_loop (T := one_line) 40 heading_page 2 20 "" = Some (dots 16) /\
  (Py.len (dots 16) <= fill_bound (T := one_line) heading_page 2 20)%nat.
Proof.
  assert (Hpos : 0 < FPDF.get_string_width (T := one_line) heading_page ".")
    by (vm_compute; reflexivity).
  assert (H : fill_loop (T := one_line) 40 heading_page 2 20 ""
              = Some (dots 16)) by (vm_compute; reflexivity).
  split; [exact Hpos|]. split; [exact H|].
  exact (fill_loop_bounded (T := one_line) 40 heading_page 2 20 _ Hpos H).
Defined.

Lemma zero_width_dot_hangs_witness :
  let item := mkBookmark 0 (digits 5) 3 in
  let sp := row_space (T := blank_font) 1 heading_page item in
  FPDF.get_string_width (T := blank_font) (sp_toc sp) "." <= 0 /\
  0 < in_between_space sp /\
  clearance_margin sp < in_between_space sp /\
  forall fuel,
    render_toc_item (T := blank_font) fuel 1 heading_page item = None.
Proof.
  intros item sp.
  assert (Hd : FPDF.get_string_width (T := blank_font) (sp_toc sp) "." <= 0)
    by (vm_compute; discriminate).
  assert (Hpos : 0 < in_between_space sp) by (vm_compute; reflexivity).
  assert (Hgap : clearance_margin sp < in_between_space sp)
    by (vm_compute; reflexivity).
  split; [exact Hd|]. split; [exact Hpos|]. split; [exact Hgap|].
  exact (zero_width_dot_hangs (T := blank_font) 1 heading_page item
           Hd Hpos Hgap).
Defined.

Lemma fill_drawn_iff_witness :
  let item := mkBookmark 0 (digits 70) 3 in
  let sp := row_space (T := one_line) 1 heading_page item in
  let toc' := row_result (T := one_line) 1 heading_page item (dots 16) in
  render_toc_item (T := one_line) 40 1 heading_page item = Some toc' /\
  0 < FPDF.get_string_width (T := one_line) (sp_toc sp) "." /\
  0 <= clearance_margin sp /\
  (fill_texts (emitted heading_page toc') <> [] <->
   FPDF.get_string_width (T := one_line) (sp_toc sp) "."
   + clearance_margin sp < in_between_space sp).
Proof.
  intros item sp toc'.
  assert (H : render_toc_item (T := one_line) 40 1 heading_page item
              = Some toc') by (vm_compute; reflexivity).
  assert (Hd : 0 < FPDF.get_string_width (T := one_line) (sp_toc sp) ".")
    by (vm_compute; reflexivity).
  assert (Hcm : 0 <= clearance_margin sp) by (vm_compute; discriminate).
  split; [exact H|]. split; [exact Hd|]. split; [exact Hcm|].
  exact (fill_drawn_iff (T := one_line) 40 1 heading_page item toc'
           H Hd Hcm).
Defined.

(** ** What a row leaves untouched, and where its spans lie *)

Lemma same_format_refl (a : FPDF.t) : same_format a a.
Proof. repeat split. Qed.

Lemma same_format_trans (a b c : FPDF.t) :
  same_format a b -> same_format b c -> same_format a c.
Proof.
  unfold same_format. intros H1 H2.
  decompose [and] H1. decompose [and] H2. repeat split; congruence.
Qed.

Lemma same_format_set_x v pdf : same_format pdf (FPDF.set_x v pdf).
Proof. repeat split. Qed.

Lemma same_format_ln hh pdf : same_format pdf (FPDF.ln hh pdf).
Proof. repeat split. Qed.

Lemma same_format_with_font pdf f : same_format pdf (FPDF.with_font pdf f).
Proof. repeat split. Qed.

Lemma same_format_add_link name pdf :
  same_format pdf (FPDF.add_link name pdf).
Proof. repeat split. Qed.

Section Geometry.

Context {T : FPDF.Typeset}.

Lemma same_format_multi_cell ww hh text nx ny link align pdf :
  same_format pdf (FPDF.multi_cell ww hh text nx ny link align pdf).
Proof. repeat split. Qed.

Lemma same_format_measure_space te indent label :
  same_format te (sp_toc (measure_space te indent label)).
Proof. unfold measure_space. destruct (Py.lt _ 0); repeat split. Qed.

Lemma same_format_render_fill sp ib link :
  same_format (sp_toc sp) (render_fill sp ib link).
Proof. unfold render_fill. destruct (_ && _)%bool; repeat split. Qed.

Lemma same_format_title_end toc item :
  same_format toc (title_end toc item).
Proof.
  unfold title_end, render_title, row_entry. rewrite enter_row_style.
  eapply same_format_trans; [apply same_format_add_link|].
  eapply same_format_trans; [apply same_format_with_font|].
  eapply same_format_trans; [apply same_format_set_x|].
  apply same_format_multi_cell.
Qed.

Lemma same_format_row_result tp toc item ib :
  same_format toc (row_result tp toc item ib).
Proof.
  eapply same_format_trans; [apply (same_format_title_end toc item)|].
  unfold row_result. rewrite leave_row_style.
  unfold render_page_number, fill_end, row_space.
  eapply same_format_trans; [apply same_format_measure_space|].
  eapply same_format_trans; [apply same_format_render_fill|].
  eapply same_format_trans; [apply same_format_set_x|].
  eapply same_format_trans; [apply same_format_multi_cell|].
  apply same_format_with_font.
Qed.

Lemma render_page_number_font toc cx label link :
  FPDF.font (render_page_number toc cx label link) = FPDF.font toc.
Proof. reflexivity. Qed.

Lemma row_entry_font toc item :
  FPDF.font (row_entry toc item)
  = FPDF.face_of (get_text_style (depth item)) (FPDF.font toc).
Proof. unfold row_entry. rewrite enter_row_style. reflexivity. Qed.

(** The font a row leaves: the one it found, selected again over the
    font of the row. *)
Lemma row_result_font tp toc item ib :
  FPDF.font (row_result tp toc item ib)
  = FPDF.restored_face (FPDF.font toc)
      (FPDF.face_of (get_text_style (depth item)) (FPDF.font toc)).
Proof.
  unfold row_result. rewrite leave_row_style.
  rewrite render_page_number_font. unfold fill_end.
  destruct (render_fill_geometry (row_space tp toc item) ib
              ("#" ++ link_name item)) as (_ & _ & _ & -> & _).
  unfold row_space.
  destruct (measure_space_geometry (title_end toc item) (indent_of item)
              (item_page_number tp item)) as (_ & _ & _ & -> & _).
  destruct (title_end_font toc item) as (-> & _).
  rewrite row_entry_font. reflexivity.
Qed.

End Geometry.

(** Selecting a selected font again over a row's font gives it back. *)
Lemma restored_selected (d : nat) (f : FontFace) :
  selected_font f ->
  FPDF.restored_face f (FPDF.face_of (get_text_style d) f) = f.
Proof.
  destruct f as [fam emp sz col]. unfold selected_font.
  cbn [family size_pt]. intros (Hne & Hlow & Hsz).
  unfold FPDF.restored_face, FPDF.select_font.
  cbn [family emphasis size_pt color FPDF.with_color].
  rewrite Hne, Hlow, Hsz. reflexivity.
Qed.

Section Setup.

Context {T : FPDF.Typeset}.

(** A row changes neither the unit, the page format nor the margins of
    the document, and leaves the font it found, when that is a font
    [set_font] has selected. *)
Theorem row_keeps_setup fuel tp toc item toc' :
  render_toc_item fuel tp toc item = Some toc' ->
  selected_font (FPDF.font toc) ->
  same_setup toc toc'.
Proof.
  intros H Hsel. apply render_toc_item_inv in H. destruct H as (ib & _ & ->).
  split; [apply same_format_row_result|].
  rewrite row_result_font. symmetry. now apply restored_selected.
Qed.

Lemma render_items_setup fuel tp bms :
  forall toc toc',
    render_items fuel tp toc bms = Some toc' ->
    selected_font (FPDF.font toc) ->
    same_setup toc toc'.
Proof.
  induction bms as [|b bms IH]; intros toc toc'; cbn [render_items].
  - intros H _. injection H as <-.
    split; [apply same_format_refl|reflexivity].
  - destruct (render_toc_item fuel tp toc b) as [toc1|] eqn:E;
      [|discriminate].
    intros H Hsel. apply render_toc_item_inv in E.
    destruct E as (ib & _ & ->).
    pose proof (same_format_row_result tp toc b ib) as F1.
    pose proof (row_result_font tp toc b ib) as E1.
    rewrite (restored_selected _ _ Hsel) in E1.
    apply IH in H; [|rewrite E1; exact Hsel].
    destruct H as (F2 & E2).
    split; [eapply same_format_trans; eassumption | congruence].
Qed.

End Setup.

(** The heading leaves the format of a fresh document; of its style the
    family stays, since the empty family of a fresh document selects the
    current one. *)
Lemma heading_page_setup :
  same_format FPDF.new heading_page /\
  FPDF.font heading_page = mkFontFace "helvetica" "" 12 None.
Proof. split; [repeat split | reflexivity]. Qed.

Lemma helvetica_selected : selected_font (mkFontFace "helvetica" "" 12 None).
Proof. repeat split. Qed.

(** Whatever the bookmarks, [create_toc] returns a document with the unit,
    page format and margins of a fresh [FPDF()]: the bold faces, the size
    and the colour of the heading and of the rows are undone when their
    blocks end.  The family is not: a fresh document has none, and what
    the heading's block selects again on exit is the family it installed,
    so the document is left in regular 12 pt helvetica. *)
Theorem table_keeps_setup {T : FPDF.Typeset} fuel bms tp doc n :
  create_toc fuel bms tp = Some (doc, n) ->
  same_format FPDF.new doc /\
  FPDF.font doc = mkFontFace "helvetica" "" 12 None /\
  family (FPDF.font doc) <> family (FPDF.font FPDF.new).
Proof.
  rewrite create_toc_eq.
  destruct (render_items fuel tp heading_page bms) as [toc|] eqn:E;
    [|discriminate].
  intros H. injection H as <- _.
  destruct heading_page_setup as (F1 & E1).
  apply render_items_setup in E;
    [|rewrite E1; exact helvetica_selected].
  destruct E as (F2 & E2).
  assert (Ef : FPDF.font toc = mkFontFace "helvetica" "" 12 None)
    by congruence.
  split; [eapply same_format_trans; eassumption|].
  split; [exact Ef|]. rewrite Ef. discriminate.
Qed.

Lemma row_keeps_setup_witness :
  let item := mkBookmark 0 (digits 70) 3 in
  let toc' := row_result (T := one_line) 1 heading_page item (dots 16) in
  render_toc_item (T := one_line) 40 1 heading_page item = Some toc' /\
  selected_font (FPDF.font heading_page) /\
  same_setup heading_page toc'.
Proof.
  intros item toc'.
  assert (H : render_toc_item (T := one_line) 40 1 heading_page item
              = Some toc') by (vm_compute; reflexivity).
  assert (Hsel : selected_font (FPDF.font heading_page))
    by (repeat split).
  split; [exact H|]. split; [exact Hsel|].
  exact (row_keeps_setup (T := one_line) 40 1 heading_page item toc' H Hsel).
Defined.

Lemma table_keeps_setup_witness :
  exists doc n,
    create_toc (T := one_line) 40 [mkBookmark 0 (digits 70) 3] 1
    = Some (doc, n) /\
    same_format FPDF.new doc /\
    FPDF.font doc = mkFontFace "helvetica" "" 12 None.
Proof.
  assert (E : { res | create_toc (T := one_line) 40
                        [mkBookmark 0 (digits 70) 3] 1 = Some res }).
  { eexists. vm_compute. reflexivity. }
  destruct E as ((doc & n) & E). exists doc, n. split; [exact E|].
  destruct (table_keeps_setup (T := one_line) 40 _ 1 doc n E)
    as (F & Ef & _).
  split; [exact F | exact Ef].
Defined.

Section SpanGeometry.

Context {T : FPDF.Typeset}.

Lemma title_op_fields toc item :
  let ts := title_start toc item in
  op_x (title_op toc item) = FPDF.x ts /\
  op_w (title_op toc item) = FPDF.epw ts - indent_of item.
Proof. split; reflexivity. Qed.

Lemma fill_op_fields tp toc item ib :
  let sp := row_space tp toc item in
  op_x (fill_op tp toc item ib) = FPDF.x (sp_toc sp) /\
  op_w (fill_op tp toc item ib)
  = FPDF.w (sp_toc sp) - current_x sp - FPDF.r_margin (sp_toc sp).
Proof. split; reflexivity. Qed.

Lemma title_start_x toc item :
  0 <= FPDF.l_margin toc ->
  FPDF.x (title_start toc item) = FPDF.l_margin toc + indent_of item /\
  FPDF.epw (title_start toc item)
  = FPDF.w toc - FPDF.l_margin toc - FPDF.r_margin toc.
Proof.
  intros Hl. unfold title_start, row_entry. cbv zeta.
  rewrite enter_row_style. split; [|reflexivity].
  apply set_x_nonneg. now apply indented_nonneg.
Qed.

(** The cursor of the measuring step is at [current_x]. *)
Lemma row_space_x tp toc item :
  FPDF.x (sp_toc (row_space tp toc item))
  = current_x (row_space tp toc item).
Proof.
  unfold row_space, measure_space. destruct (Py.lt _ 0); reflexivity.
Qed.

Lemma row_space_format tp toc item :
  same_format toc (sp_toc (row_space tp toc item)).
Proof.
  eapply same_format_trans; [apply (same_format_title_end toc item)|].
  apply same_format_measure_space.
Qed.

Lemma title_op_extent toc item :
  0 <= FPDF.l_margin toc ->
  op_x (title_op toc item)
  = FPDF.l_margin toc + inject_Z (Z.of_nat (depth item)) * level_indent /\
  op_w (title_op toc item)
  = FPDF.epw toc - inject_Z (Z.of_nat (depth item)) * level_indent.
Proof.
  intros Hl.
  destruct (title_op_fields toc item) as (Tx & Tw).
  destruct (title_start_x toc item Hl) as (Sx & Sw).
  split; [now rewrite Tx | rewrite Tw, Sw; reflexivity].
Qed.

Lemma fill_op_extent tp toc item ib :
  let cx := current_x (row_space tp toc item) in
  op_x (fill_op tp toc item ib) = cx /\
  op_w (fill_op tp toc item ib) = FPDF.w toc - cx - FPDF.r_margin toc.
Proof.
  intros cx. subst cx.
  destruct (fill_op_fields tp toc item ib) as (Fx & Fw).
  destruct (row_space_format tp toc item)
    as (_ & Ew & _ & _ & _ & Er & _).
  split; [rewrite Fx; apply row_space_x | rewrite Fw; congruence].
Qed.

Lemma current_x_nonneg tp toc item :
  0 <= FPDF.l_margin toc ->
  0 <= FPDF.x (title_end toc item) ->
  0 <= current_x (row_space tp toc item).
Proof.
  intros Hl Hx.
  destruct (row_space_cases tp toc item Hl) as (Hbreak & Hstay).
  destruct (Qlt_le_dec (first_space tp toc item) 0) as [Hneg | Hpos].
  - destruct (Hbreak Hneg) as (_ & Ex' & _ & Ec & _).
    rewrite Ec, Ex'. apply (indented_nonneg _ item Hl).
  - destruct (Hstay Hpos) as (_ & Ec & _). rewrite Ec. exact Hx.
Qed.

Lemma label_op_extent tp toc item ib :
  let cx := current_x (row_space tp toc item) in
  0 <= cx ->
  op_x (label_op tp toc item ib) = cx /\
  op_w (label_op tp toc item ib) = FPDF.w toc - cx - FPDF.r_margin toc.
Proof.
  intros cx Hcx. subst cx.
  destruct (label_op_fields tp toc item ib) as (_ & _ & Ox & Ow & _).
  destruct (label_start_geometry tp toc item ib) as (Lw & _ & Lr & _).
  split; [rewrite Ox; now apply label_start_x | rewrite Ow; congruence].
Qed.

Lemma row_spans tp toc item ib :
  spans ([OpAddLink (link_name item); title_op toc item]
         ++ (if fill_drawn (row_space tp toc item) ib
             then [fill_op tp toc item ib] else [])
         ++ [label_op tp toc item ib])%list
  = (title_op toc item
     :: (if fill_drawn (row_space tp toc item) ib
         then [fill_op tp toc item ib] else [])
     ++ [label_op tp toc item ib])%list.
Proof. destruct (fill_drawn (row_space tp toc item) ib); reflexivity. Qed.

(** The title is a cell that starts at the left margin plus 7.5 per level
    of depth and is as wide as the effective page width less that indent.
    The spans after it, the fill when it is drawn and the page number,
    have one and the same horizontal extent: each starts at [current_x]
    and has the width [w - current_x - r_margin] the script computes for
    it, so the dots, aligned left, and the number, aligned right, are set
    in the same cell. *)
Theorem fill_and_label_share_extent fuel tp toc item toc' :
  render_toc_item fuel tp toc item = Some toc' ->
  0 <= FPDF.l_margin toc ->
  0 <= FPDF.x (title_end toc item) ->
  let cx := current_x (row_space tp toc item) in
  exists rest,
    spans (emitted toc toc') = title_op toc item :: rest /\
    rest <> [] /\
    op_x (title_op toc item)
    = FPDF.l_margin toc + inject_Z (Z.of_nat (depth item)) * level_indent /\
    op_w (title_op toc item)
    = FPDF.epw toc - inject_Z (Z.of_nat (depth item)) * level_indent /\
    Forall (fun op => op_x op = cx /\
                      op_w op = FPDF.w toc - cx - FPDF.r_margin toc) rest.
Proof.
  intros H Hl Hx cx. apply row_emitted in H.
  destruct H as (ib & _ & _ & Hem). rewrite Hem, row_spans.
  destruct (title_op_extent toc item Hl) as (Tx & Tw).
  pose proof (fill_op_extent tp toc item ib) as Fe.
  pose proof (label_op_extent tp toc item ib
                (current_x_nonneg tp toc item Hl Hx)) as Le.
  eexists. split; [reflexivity|].
  split; [destruct (fill_drawn (row_space tp toc item) ib); discriminate|].
  split; [exact Tx|]. split; [exact Tw|].
  destruct (fill_drawn (row_space tp toc item) ib); cbn [app];
    repeat (constructor; try assumption).
Qed.

End SpanGeometry.

Lemma fill_and_label_share_extent_witness :
  let item := mkBookmark 2 (digits 70) 3 in
  let toc' := row_result (T := one_line) 1 heading_page item (dots 3) in
  let cx := current_x (row_space (T := one_line) 1 heading_page item) in
  render_toc_item (T := one_line) 40 1 heading_page item = Some toc' /\
  0 <= FPDF.l_margin heading_page /\
  0 <= FPDF.x (title_end (T := one_line) heading_page item) /\
  exists rest,
    spans (emitted heading_page toc')
    = title_op heading_page item :: rest /\
    List.length rest = 2%nat /\
    Forall (fun op => op_x op = cx /\
                      op_w op = FPDF.w heading_page - cx
                                - FPDF.r_margin heading_page) rest.
Proof.
  intros item toc' cx.
  assert (H : render_toc_item (T := one_line) 40 1 heading_page item
              = Some toc') by (vm_compute; reflexivity).
  assert (Hl : 0 <= FPDF.l_margin heading_page) by (vm_compute; discriminate).
  assert (Hx : 0 <= FPDF.x (title_end (T := one_line) heading_page item))
    by (vm_compute; discriminate).
  split; [exact H|]. split; [exact Hl|]. split; [exact Hx|].
  destruct (fill_and_label_share_extent (T := one_line) 40 1 heading_page
              item toc' H Hl Hx) as (rest & Hs & _ & _ & _ & Hall).
  exists rest. split; [exact Hs|]. split; [|exact Hall].
  assert (Hlen : List.length (spans (emitted heading_page toc')) = 3%nat)
    by (vm_compute; reflexivity).
  rewrite Hs in Hlen. cbn [List.length] in Hlen. now injection Hlen.
Defined.

(** ** The table and the merged document, further *)

Section DocumentFacts.

Context {T : FPDF.Typeset}.

(** With no bookmark left, the construction needs no iteration of the
    loop: one render, a table of one page that holds the heading alone,
    and a merged document made of that page followed by the pages of the
    source, without any destination. *)
Theorem empty_table fuel reader skip :
  prepare_bookmarks reader skip = [] ->
  exists run,
    CreateTOC fuel reader skip = Some run /\
    renders run = [1%nat] /\
    toc_pdf run = heading_page /\
    PdfWriter.pages (merged run) = (TocPage 0 :: pages reader) /\
    PdfWriter.named_destinations (merged run) = [].
Proof.
  intros Hb. unfold CreateTOC. rewrite Hb, create_toc_eq.
  cbn [render_items].
  assert (Hp : FPDF.page_no heading_page = 1%nat) by reflexivity.
  rewrite Hp. cbn [Nat.eqb negb]. eexists. split; [reflexivity|].
  cbn [renders toc_pdf merged]. rewrite merge_pdfs_eq.
  cbn [PdfWriter.pages PdfWriter.named_destinations map].
  unfold toc_reader_pages. rewrite Hp. repeat split.
Qed.

(** The number printed in a row is the number, counted from 1, of the
    page its link points at: for every bookmark, in order, the printed
    label is [str] of the target of its destination plus one. *)
Theorem labels_match_targets fuel reader skip run :
  CreateTOC fuel reader skip = Some run ->
  label_texts (FPDF.content (toc_pdf run))
  = map (fun dest => Py.str (snd dest + 1))
      (PdfWriter.named_destinations (merged run)).
Proof.
  intros H.
  destruct (CreateTOC_run fuel reader skip run H) as (_ & _ & Ht & Hm).
  rewrite (table_label_texts _ _ _ Ht), Hm, merge_pdfs_eq.
  cbn [PdfWriter.named_destinations]. rewrite map_map. reflexivity.
Qed.

(** A name never stands for two targets: destinations registered under
    the same name point at the same page. *)
Theorem same_name_same_target fuel reader skip run :
  CreateTOC fuel reader skip = Some run ->
  forall name p q,
    In (name, p) (PdfWriter.named_destinations (merged run)) ->
    In (name, q) (PdfWriter.named_destinations (merged run)) ->
    p = q.
Proof.
  intros H name p q Hp Hq.
  destruct (CreateTOC_run fuel reader skip run H) as (_ & _ & _ & Hm).
  rewrite Hm, merge_pdfs_eq in Hp, Hq.
  cbn [PdfWriter.named_destinations] in Hp, Hq.
  apply in_map_iff in Hp. destruct Hp as (a & Ea & _).
  apply in_map_iff in Hq. destruct Hq as (b & Eb & _).
  unfold destination_of in Ea, Eb.
  injection Ea as Ean Eap. injection Eb as Ebn Ebp.
  assert (E : page a = page b).
  { apply link_name_inj. unfold link_name. congruence. }
  lia.
Qed.

(** A table that is final after its first render has the one page
    [toc_pages] says.  Then, and whenever the final table has [toc_pages]
    pages, the merged document is the table followed by the source, and
    the destination of every bookmark, named after its page, points at
    that page of the source. *)
Theorem links_reach_bookmarks fuel reader skip run :
  CreateTOC fuel reader skip = Some run ->
  renders run = [1%nat] \/ FPDF.page_no (toc_pdf run) = toc_pages run ->
  FPDF.page_no (toc_pdf run) = toc_pages run /\
  PdfWriter.pages (merged run)
  = (map TocPage (seq 0 (toc_pages run)) ++ pages reader)%list /\
  forall b, In b (bookmarks run) ->
    exists target,
      In ("dest" ++ Py.str (page b), target)
        (PdfWriter.named_destinations (merged run)) /\
      PdfWriter.resolve (merged run) target
      = nth_error (pages reader) (page b).
Proof.
  intros H Hor.
  destruct (CreateTOC_run fuel reader skip run H) as (_ & _ & _ & Hm).
  assert (Hp : FPDF.page_no (toc_pdf run) = toc_pages run).
  { destruct Hor as [Hr | Hp]; [|exact Hp].
    apply CreateTOC_inv in H.
    destruct H
      as (doc1 & n1 & H1 & [(E & Hrun) | (E & doc2 & n2 & _ & Hrun)]).
    - subst n1. apply create_toc_table in H1. destruct H1 as (En & _).
      rewrite Hrun. cbn [toc_pdf toc_pages]. now rewrite <- En.
    - rewrite Hrun in Hr. cbn [renders] in Hr. discriminate Hr. }
  split; [exact Hp|]. split.
  - rewrite Hm, merge_pdfs_eq. cbn [PdfWriter.pages].
    unfold toc_reader_pages. now rewrite Hp.
  - intros b Hb. exists (page b + toc_pages run)%nat. split.
    + rewrite Hm, merge_pdfs_eq. cbn [PdfWriter.named_destinations].
      apply in_map_iff. exists b. split; [reflexivity | exact Hb].
    + rewrite Hm. now apply resolve_shifted.
Qed.

End DocumentFacts.

Lemma sorted_map_shift (tp : nat) (l : list Bookmark) :
  sorted_by_page l ->
  Sorted le (map (fun b => (page b + tp + 1)%nat) l).
Proof.
  induction 1 as [|a l Hs IH Hhd]; cbn [map]; constructor; [exact IH|].
  destruct Hhd as [|b l Hab]; cbn [map]; constructor.
  unfold by_page, le_by in Hab. lia.
Qed.

(** The page numbers printed in the table never decrease from one row to
    the next, whatever the order of the outline. *)
Theorem labels_ascending {T : FPDF.Typeset} fuel reader skip run :
  CreateTOC fuel reader skip = Some run ->
  exists numbers,
    label_texts (FPDF.content (toc_pdf run)) = map Py.str numbers /\
    Sorted le numbers /\
    List.length numbers = List.length (bookmarks run).
Proof.
  intros H.
  destruct (CreateTOC_run fuel reader skip run H) as (Eb & _ & Ht & _).
  exists (map (fun b => (page b + toc_pages run + 1)%nat) (bookmarks run)).
  split; [|split].
  - rewrite (table_label_texts _ _ _ Ht), map_map. reflexivity.
  - apply sorted_map_shift. rewrite Eb. apply prepare_bookmarks_sorted.
  - apply length_map.
Qed.

Lemma empty_table_witness :
  prepare_bookmarks sample_reader 7 = [] /\
  exists run,
    CreateTOC (T := one_line) 0 sample_reader 7 = Some run /\
    renders run = [1%nat] /\
    PdfWriter.named_destinations (merged run) = [].
Proof.
  assert (Hb : prepare_bookmarks sample_reader 7 = []) by reflexivity.
  split; [exact Hb|].
  destruct (empty_table (T := one_line) 0 sample_reader 7 Hb)
    as (run & H & Hr & _ & _ & Hd).
  exists run. split; [exact H|]. split; [exact Hr | exact Hd].
Defined.

Lemma labels_match_targets_witness :
  exists run,
    CreateTOC (T := one_line) 200 twin_reader 0 = Some run /\
    label_texts (FPDF.content (toc_pdf run)) = ["4"; "4"] /\
    label_texts (FPDF.content (toc_pdf run))
    = map (fun dest => Py.str (snd dest + 1))
        (PdfWriter.named_destinations (merged run)).
Proof.
  assert (E : { run | CreateTOC (T := one_line) 200 twin_reader 0 = Some run
                      /\ label_texts (FPDF.content (toc_pdf run))
                         = ["4"; "4"] }).
  { eexists. split; [vm_compute; reflexivity | reflexivity]. }
  destruct E as (run & E & Hl). exists run.
  split; [exact E|]. split; [exact Hl|].
  exact (labels_match_targets (T := one_line) 200 twin_reader 0 run E).
Defined.

Lemma same_name_same_target_witness :
  exists run,
    CreateTOC (T := one_line) 200 twin_reader 0 = Some run /\
    In ("dest2", 3%nat) (PdfWriter.named_destinations (merged run)) /\
    forall q, In ("dest2", q) (PdfWriter.named_destinations (merged run)) ->
              3%nat = q.
Proof.
  assert (E : { run | CreateTOC (T := one_line) 200 twin_reader 0 = Some run
                      /\ In ("dest2", 3%nat)
                            (PdfWriter.named_destinations (merged run)) }).
  { eexists. split; [vm_compute; reflexivity | left; reflexivity]. }
  destruct E as (run & E & Hin). exists run.
  split; [exact E|]. split; [exact Hin|].
  intros q Hq.
  exact (same_name_same_target (T := one_line) 200 twin_reader 0 run E
           "dest2" 3%nat q Hin Hq).
Defined.

Lemma labels_ascending_witness :
  exists run,
    CreateTOC (T := one_line) 40 shuffled_reader 0 = Some run /\
    label_texts (FPDF.content (toc_pdf run)) = ["4"; "7"; "11"] /\
    exists numbers,
      label_texts (FPDF.content (toc_pdf run)) = map Py.str numbers /\
      Sorted le numbers /\
      List.length numbers = List.length (bookmarks run).
Proof.
  assert (E : { run | CreateTOC (T := one_line) 40 shuffled_reader 0
                      = Some run
                      /\ label_texts (FPDF.content (toc_pdf run))
                         = ["4"; "7"; "11"] }).
  { eexists. split; [vm_compute; reflexivity | reflexivity]. }
  destruct E as (run & E & Hl). exists run.
  split; [exact E|]. split; [exact Hl|].
  exact (labels_ascending (T := one_line) 40 shuffled_reader 0 run E).
Defined.

(** Five outline entries, four skipped: one row and one render; the
    destination of the bookmark of page 7 points at page 7 of the
    source. *)
Lemma links_reach_bookmarks_witness :
  exists run,
    CreateTOC (T := one_line) 200 sample_reader DEFAULT_SKIP_BOOKMARKS
    = Some run /\
    renders run = [1%nat] /\
    PdfWriter.pages (merged run)
    = (TocPage 0 :: map SourcePage (seq 0 12)) /\
    exists target,
      In ("dest7", target) (PdfWriter.named_destinations (merged run)) /\
      PdfWriter.resolve (merged run) target = Some (SourcePage 7).
Proof.
  assert (E : { run | CreateTOC (T := one_line) 200 sample_reader
                        DEFAULT_SKIP_BOOKMARKS = Some run
                      /\ renders run = [1%nat]
                      /\ toc_pages run = 1%nat
                      /\ In (mkBookmark 0 "Chapter 1" 7) (bookmarks run) }).
  { eexists. split; [vm_compute; reflexivity|].
    split; [reflexivity|]. split; [reflexivity | left; reflexivity]. }
  destruct E as (run & E & Hr & Ht & Hin). exists run.
  destruct (links_reach_bookmarks (T := one_line) 200 sample_reader
              DEFAULT_SKIP_BOOKMARKS run E (or_introl Hr))
    as (_ & Hp & Hres).
  split; [exact E|]. split; [exact Hr|].
  split; [rewrite Hp, Ht; reflexivity|].
  exact (Hres _ Hin).
Defined.
